(** * Horsestrap: the Open Graph image script (website/create-og-image.py)

    A shallow embedding of the script.  The script is straight-line Python
    over three kinds of things:

    - binary64 arithmetic for the gradient colour of each scanline,
      modelled with the Standard Library's [SpecFloat];
    - calls into the imaging library (Pillow).  The library is not part of
      the repository, so its objects are kept symbolic: a canvas is the
      list of drawing calls applied to it, an image is what was opened and
      how it was resized.  Whether a call raises is decided by the
      environment;
    - the working directory and the console, modelled as explicit state. *)

From Stdlib Require Import ZArith List Lia SpecFloat String Ascii.
From Stdlib Require Import HexadecimalString HexadecimalN.
From stdpp Require Import base gmap strings list option.

Open Scope Z_scope.

(* ===================================================================== *)
(** ** Python floats and integer formatting                               *)
(* ===================================================================== *)

Module PyFloat.

(** Python's [float] is IEEE 754 binary64. *)
Definition prec : Z := 53.
Definition emax : Z := 1024.

(** [float(n)] for an [int] n, rounding to nearest even. *)
Definition of_int (n : Z) : spec_float := binary_normalize prec emax n 0 false.

Definition add : spec_float -> spec_float -> spec_float := SFadd prec emax.
Definition mul : spec_float -> spec_float -> spec_float := SFmul prec emax.
Definition div : spec_float -> spec_float -> spec_float := SFdiv prec emax.

(** [a / b] on two ints (true division).  Both operands of the script are
    far below 2^53, so the quotient is the correctly rounded float
    division of the two conversions.  [None] is ZeroDivisionError. *)
Definition true_div (a b : Z) : option spec_float :=
  if b =? 0 then None else Some (div (of_int a) (of_int b)).

(** [int(x)]: truncation towards zero; [None] for infinities and NaN,
    where Python raises. *)
Definition to_int (x : spec_float) : option Z :=
  match x with
  | S754_zero _ => Some 0
  | S754_finite s m e =>
      let a := match e with
               | Z0 => Zpos m
               | Zpos p => Z.shiftl (Zpos m) (Zpos p)
               | Zneg p => Z.shiftr (Zpos m) (Zpos p)
               end in
      Some (if s then - a else a)
  | S754_infinity _ | S754_nan => None
  end.

End PyFloat.

Module PyFormat.

Definition hex (n : Z) : string :=
  NilZero.string_of_uint (N.to_hex_uint (Z.to_N n)).

Fixpoint zeros (k : nat) : string :=
  match k with
  | O => EmptyString
  | S k' => String "0" (zeros k')
  end.

(** The format spec [02x]: lower-case hexadecimal, zero-padded to a total
    width of two, a minus sign counting towards the width. *)
Definition format_02x (n : Z) : string :=
  let digits := hex (Z.abs n) in
  if n <? 0
  then String "-" (zeros (1 - String.length digits) +:+ digits)
  else zeros (2 - String.length digits) +:+ digits.

End PyFormat.

(* ===================================================================== *)
(** ** The gradient colour of a scanline (lines 16-18)                    *)
(* ===================================================================== *)

Definition width : Z := 1200.
Definition height : Z := 630.

(** [color_value = int(0x4a + (0x3a - 0x4a) * (y / height))] *)
Definition color_value (y : Z) : option Z :=
  match PyFloat.true_div y height with
  | None => None
  | Some t =>
      PyFloat.to_int
        (PyFloat.add (PyFloat.of_int 0x4a)
           (PyFloat.mul (PyFloat.of_int (0x3a - 0x4a)) t))
  end.

(** [color = f'#{color_value:02x}{color_value-10:02x}{color_value+20:02x}'] *)
Definition color_of_value (v : Z) : string :=
  String "#" (PyFormat.format_02x v +:+ PyFormat.format_02x (v - 10)
              +:+ PyFormat.format_02x (v + 20)).

(** The three channels the colour string is built from. *)
Definition channels (v : Z) : Z * Z * Z := (v, v - 10, v + 20).

(** The claim's words for the red channel: the integer truncation of the
    exact number [0x4a + (0x3a - 0x4a) * (y / height)], which is the
    fraction [(0x4a * height + (0x3a - 0x4a) * y) / height]. *)
Definition spec_red (y : Z) : Z :=
  (0x4a * height + (0x3a - 0x4a) * y) ÷ height.

(** How the imaging library reads a colour of the form [#rrggbb]: three
    two-digit hexadecimal fields.  Only this form is modelled; any other
    string yields [None]. *)
Module ImageColor.

Definition hex_digit (c : ascii) : option Z :=
  let n := Z.of_nat (nat_of_ascii c) in
  if (48 <=? n) && (n <=? 57) then Some (n - 48)
  else if (97 <=? n) && (n <=? 102) then Some (n - 87)
  else None.

Definition hex_pair (a b : ascii) : option Z :=
  match hex_digit a, hex_digit b with
  | Some h, Some l => Some (16 * h + l)
  | _, _ => None
  end.

Definition getrgb (s : string) : option (Z * Z * Z) :=
  match s with
  | String "#" (String r1 (String r2 (String g1 (String g2
      (String b1 (String b2 EmptyString)))))) =>
      match hex_pair r1 r2, hex_pair g1 g2, hex_pair b1 b2 with
      | Some r, Some g, Some b => Some (r, g, b)
      | _, _, _ => None
      end
  | _ => None
  end.

End ImageColor.

Definition in_byte_range (v : Z) : bool := (0 <=? v) && (v <=? 255).

(** One row of the check table: the float computation agrees with the
    exact truncation, the channels fit a byte, and the colour string reads
    back as the channels. *)
Definition row_ok (y : Z) : bool :=
  match color_value y with
  | None => false
  | Some v =>
      (v =? spec_red y)
      && in_byte_range v && in_byte_range (v - 10) && in_byte_range (v + 20)
      && bool_decide (ImageColor.getrgb (color_of_value v) = Some (channels v))
  end.

(* ===================================================================== *)
(** ** Exceptions, process state and the run monad                        *)
(* ===================================================================== *)

(** The three exception classes the script's handlers tell apart:
    [ImportError] (with its subclasses), every other subclass of
    [Exception], and what lies outside [Exception] (KeyboardInterrupt,
    SystemExit), which only a bare [except:] catches. *)
Inductive exn_class := ImportError | Exception | BaseException.

Record exn := Exn { exn_cls : exn_class; exn_msg : string }.

Inductive Font :=
| TrueType (path : string) (size : Z)
| DefaultFont.

(** The four font variables; [None] is a name not yet bound. *)
Record FontVars := {
  title_font : option Font;
  subtitle_font : option Font;
  tagline_font : option Font;
  feature_font : option Font
}.

Definition unbound : FontVars :=
  {| title_font := None; subtitle_font := None;
     tagline_font := None; feature_font := None |}.

(** What a run can change: the files of the working directory, the lines
    printed so far, and the font variables (they are assigned inside a
    [try] block, so a partial assignment survives an exception). *)
Record State := {
  files : gmap string (list Byte.byte);
  console : list string;
  vars : FontVars
}.

Inductive result (A : Type) :=
| Ok (a : A)
| Raise (e : exn).
Arguments Ok {A} a.
Arguments Raise {A} e.

Definition M (A : Type) : Type := State -> result A * State.

Definition ret {A} (a : A) : M A := fun st => (Ok a, st).

Definition raise {A} (e : exn) : M A := fun st => (Raise e, st).

Definition bind {A B} (m : M A) (k : A -> M B) : M B :=
  fun st =>
    match m st with
    | (Ok a, st') => k a st'
    | (Raise e, st') => (Raise e, st')
    end.

(** [try: body  except ...: handler]; the handler decides per exception
    whether it catches (a handler that does not re-raises). *)
Definition try_except {A} (body : M A) (handler : exn -> M A) : M A :=
  fun st =>
    match body st with
    | (Ok a, st') => (Ok a, st')
    | (Raise e, st') => handler e st'
    end.

Notation "'let!' x ':=' m 'in' k" := (bind m (fun x => k))
  (at level 10, x name, m at level 100, k at level 200).
Notation "m >>> k" := (bind m (fun _ => k))
  (at level 90, right associativity).

Fixpoint for_each {A} (l : list Z) (body : Z -> A -> M A) (a : A) : M A :=
  match l with
  | [] => ret a
  | y :: l' => let! a' := body y a in for_each l' body a'
  end.

Definition print (line : string) : M unit :=
  fun st =>
    (Ok tt, {| files := files st; console := console st ++ [line];
               vars := vars st |}).

(** [os.path.exists] *)
Definition path_exists (p : string) : M bool :=
  fun st => (Ok (bool_decide (is_Some (files st !! p))), st).

Definition write_file (p : string) (bytes : list Byte.byte) : M unit :=
  fun st =>
    (Ok tt, {| files := <[p := bytes]> (files st);
               console := console st; vars := vars st |}).

(* ===================================================================== *)
(** ** The imaging library, symbolically                                  *)
(* ===================================================================== *)

Inductive Resampling := NEAREST | BILINEAR | BICUBIC | LANCZOS.

(** An image is known by how it was obtained.  Resizing keeps the mode and
    yields the requested size. *)
Inductive Image :=
| Opened (path : string) (mode : string) (size : Z * Z)
| Resized (src : Image) (size : Z * Z) (resample : Resampling).

Fixpoint im_mode (im : Image) : string :=
  match im with
  | Opened _ mode _ => mode
  | Resized src _ _ => im_mode src
  end.

Definition im_size (im : Image) : Z * Z :=
  match im with
  | Opened _ _ size => size
  | Resized _ size _ => size
  end.

(** The modes of the library that carry an alpha band. *)
Definition has_alpha_channel (mode : string) : bool :=
  bool_decide (mode ∈ ["RGBA"; "LA"; "PA"; "RGBa"; "La"]).

Inductive DrawOp :=
| Line (p0 p1 : Z * Z) (fill : string)
| Paste (im : Image) (box : Z * Z) (mask : option Image)
| Text (xy : Z * Z) (text fill : string) (font : Font) (anchor : option string).

(** The canvas [img] (and [draw], which draws onto the same object): the
    image created by [Image.new] and the drawing calls applied since, in
    order.  No drawing call changes mode or size. *)
Record Canvas := {
  cv_mode : string;
  cv_size : Z * Z;
  cv_color : string;
  cv_ops : list DrawOp
}.

Definition add_op (img : Canvas) (op : DrawOp) : Canvas :=
  {| cv_mode := cv_mode img; cv_size := cv_size img;
     cv_color := cv_color img; cv_ops := cv_ops img ++ [op] |}.

(** The pixels a line from [p0] to [p1] touches when it is horizontal. *)
Definition on_hline (p0 p1 : Z * Z) (x y : Z) : Prop :=
  snd p0 = y /\ snd p1 = y /\ Z.min (fst p0) (fst p1) <= x <= Z.max (fst p0) (fst p1).

(** The call sites into the library.  The environment decides which of
    them raise, and with what. *)
Inductive Call :=
| CNew | CDraw | CLine (y : Z) | COpen | CResize | CPaste
| CTruetype (size : Z) | CText (text : string) | CSave.

(** [copy_fault] is how [shutil.copy] ends on a source that exists:
    [None] when it succeeds, otherwise the error it raises (the source
    cannot be read, the destination cannot be written, the permission
    bits cannot be carried over) together with what the destination has
    been left holding, if it was written to before the error. *)
Record Env := {
  pil_available : bool;          (* can [from PIL import ...] succeed *)
  mascot_mode : string;          (* what decoding the mascot file gives *)
  mascot_size : Z * Z;
  fault : Call -> option exn;
  copy_fault : option (exn * option (list Byte.byte))
}.

Definition lib_call (env : Env) (c : Call) : M unit :=
  fun st =>
    match fault env c with
    | Some e => (Raise e, st)
    | None => (Ok tt, st)
    end.

(** [shutil.copy(src, dst)] between regular files of the working
    directory.  The source is opened first: a missing source raises
    FileNotFoundError, a subclass of Exception, with the destination
    untouched.  On a source that exists the copy ends as the environment
    says: it raises, leaving the destination as it was or holding what had
    been written by then, or it succeeds and the bytes of [src] are the
    bytes of [dst]. *)
Definition shutil_copy (env : Env) (src dst : string) : M unit :=
  fun st =>
    match files st !! src with
    | None =>
        (Raise (Exn Exception
                  ("[Errno 2] No such file or directory: '" +:+ src +:+ "'")),
         st)
    | Some bytes =>
        match copy_fault env with
        | Some (e, written) =>
            (Raise e,
             {| files := match written with
                         | Some partial => <[dst := partial]> (files st)
                         | None => files st
                         end;
                console := console st; vars := vars st |})
        | None =>
            (Ok tt, {| files := <[dst := bytes]> (files st);
                       console := console st; vars := vars st |})
        end
    end.

(* ===================================================================== *)
(** ** The script                                                         *)
(* ===================================================================== *)

Definition mascot_path : string := "horsestrap-mascot.png".
Definition output_path : string := "horsestrap-og-image.png".
Definition arial : string := "/System/Library/Fonts/Arial.ttf".

Definition import_PIL (env : Env) : M unit :=
  if pil_available env then ret tt
  else raise (Exn ImportError "No module named 'PIL'").

Definition Image_new (env : Env) (mode : string) (size : Z * Z) (color : string)
  : M Canvas :=
  lib_call env CNew >>>
  ret {| cv_mode := mode; cv_size := size; cv_color := color; cv_ops := [] |}.

Definition ImageDraw_Draw (env : Env) (img : Canvas) : M Canvas :=
  lib_call env CDraw >>> ret img.

Definition draw_line (env : Env) (img : Canvas) (p0 p1 : Z * Z) (fill : string)
  : M Canvas :=
  lib_call env (CLine (snd p0)) >>> ret (add_op img (Line p0 p1 fill)).

(** The body of the gradient loop (lines 17-19).  The [None] branch is the
    float expression raising; no row of the script reaches it. *)
Definition gradient_row (env : Env) (y : Z) (img : Canvas) : M Canvas :=
  match color_value y with
  | None => raise (Exn Exception "float arithmetic error")
  | Some v => draw_line env img (0, y) (width, y) (color_of_value v)
  end.

(** [for y in range(height): ...] *)
Definition gradient (env : Env) (img : Canvas) : M Canvas :=
  for_each (seqZ 0 height) (gradient_row env) img.

Definition Image_open (env : Env) (p : string) : M Image :=
  lib_call env COpen >>> ret (Opened p (mascot_mode env) (mascot_size env)).

Definition Image_resize (env : Env) (im : Image) (size : Z * Z) (f : Resampling)
  : M Image :=
  lib_call env CResize >>> ret (Resized im size f).

Definition Image_paste (env : Env) (img : Canvas) (im : Image) (box : Z * Z)
    (mask : option Image) : M Canvas :=
  lib_call env CPaste >>> ret (add_op img (Paste im box mask)).

(** Lines 22-27. *)
Definition mascot_step (env : Env) (img : Canvas) : M Canvas :=
  let! present := path_exists mascot_path in
  if present : bool then
    let! mascot := Image_open env mascot_path in
    let! mascot := Image_resize env mascot (280, 280) LANCZOS in
    Image_paste env img mascot (100, 175)
      (if String.eqb (im_mode mascot) "RGBA" then Some mascot else None)
  else ret img.

Definition truetype (env : Env) (p : string) (size : Z) : M Font :=
  lib_call env (CTruetype size) >>> ret (TrueType p size).

(** The built-in font is part of the library; loading it opens no file. *)
Definition load_default : M Font := ret DefaultFont.

Definition set_title_font (f : Font) : M unit :=
  fun st =>
    (Ok tt, {| files := files st; console := console st;
               vars := {| title_font := Some f;
                          subtitle_font := subtitle_font (vars st);
                          tagline_font := tagline_font (vars st);
                          feature_font := feature_font (vars st) |} |}).

Definition set_subtitle_font (f : Font) : M unit :=
  fun st =>
    (Ok tt, {| files := files st; console := console st;
               vars := {| title_font := title_font (vars st);
                          subtitle_font := Some f;
                          tagline_font := tagline_font (vars st);
                          feature_font := feature_font (vars st) |} |}).

Definition set_tagline_font (f : Font) : M unit :=
  fun st =>
    (Ok tt, {| files := files st; console := console st;
               vars := {| title_font := title_font (vars st);
                          subtitle_font := subtitle_font (vars st);
                          tagline_font := Some f;
                          feature_font := feature_font (vars st) |} |}).

Definition set_feature_font (f : Font) : M unit :=
  fun st =>
    (Ok tt, {| files := files st; console := console st;
               vars := {| title_font := title_font (vars st);
                          subtitle_font := subtitle_font (vars st);
                          tagline_font := tagline_font (vars st);
                          feature_font := Some f |} |}).

(** Reading a variable; an unbound name is a NameError. *)
Definition get_font (name : string) (var : FontVars -> option Font) : M Font :=
  fun st =>
    match var (vars st) with
    | Some f => (Ok f, st)
    | None =>
        (Raise (Exn Exception ("name '" +:+ name +:+ "' is not defined")), st)
    end.

(** The [try] block of lines 31-35. *)
Definition load_system_fonts (env : Env) : M unit :=
  let! f := truetype env arial 72 in set_title_font f >>>
  let! f := truetype env arial 28 in set_subtitle_font f >>>
  let! f := truetype env arial 24 in set_tagline_font f >>>
  let! f := truetype env arial 18 in set_feature_font f.

(** The bare [except:] block of lines 37-41. *)
Definition load_default_fonts : M unit :=
  let! f := load_default in set_title_font f >>>
  let! f := load_default in set_subtitle_font f >>>
  let! f := load_default in set_tagline_font f >>>
  let! f := load_default in set_feature_font f.

(** Lines 30-41.  A bare [except:] catches every exception. *)
Definition resolve_fonts (env : Env) : M unit :=
  try_except (load_system_fonts env) (fun _ => load_default_fonts).

Definition draw_text (env : Env) (img : Canvas) (xy : Z * Z) (text fill : string)
    (font : Font) (anchor : option string) : M Canvas :=
  lib_call env (CText text) >>> ret (add_op img (Text xy text fill font anchor)).

Definition title_text : string := "HORSESTRAP".
Definition subtitle_text : string := "The Anti-Framework Framework".
Definition tagline1_text : string := "Zero-config deployment for .NET Umbraco CMS".
Definition tagline2_text : string := "Fresh Ubuntu to live site in 2 minutes".
Definition features_text : string :=
  "🚀 2-Min Deploy    🖥️ CMS Ready    ⚡ Auto SSL".
Definition pun_text : string := "No horse shit, just results. 🐴".

(** Lines 44-62. *)
Definition draw_texts (env : Env) (img : Canvas) : M Canvas :=
  let x_text := 450 in
  let y_start := 180 in
  let! f := get_font "title_font" title_font in
  let! img := draw_text env img (x_text, y_start) title_text "#f5f5f0" f None in
  let! f := get_font "subtitle_font" subtitle_font in
  let! img := draw_text env img (x_text, y_start + 100) subtitle_text
                "#b8b8c0" f None in
  let! f := get_font "tagline_font" tagline_font in
  let! img := draw_text env img (x_text, y_start + 150) tagline1_text
                "#999999" f None in
  let! f := get_font "tagline_font" tagline_font in
  let! img := draw_text env img (x_text, y_start + 180) tagline2_text
                "#999999" f None in
  let features_y := y_start + 230 in
  let! f := get_font "feature_font" feature_font in
  let! img := draw_text env img (x_text, features_y) features_text
                "#f5f5f0" f None in
  let! f := get_font "feature_font" feature_font in
  draw_text env img (1160, 600) pun_text "#999999" f (Some "ra").

(** Lines 7-62: everything the outer [try] does before it saves. *)
Definition draw_image (env : Env) : M Canvas :=
  import_PIL env >>>
  let! img := Image_new env "RGB" (width, height) "#4a4554" in
  let! img := ImageDraw_Draw env img in
  let! img := gradient env img in
  let! img := mascot_step env img in
  resolve_fonts env >>>
  draw_texts env img.

Section Script.

(** The library's PNG encoder, as a function of the canvas. *)
Variable png_encode : Canvas -> list Byte.byte.

(** [img.save(p, 'PNG', quality=95)] *)
Definition Image_save (env : Env) (img : Canvas) (p format : string)
    (quality : Z) : M unit :=
  lib_call env CSave >>> write_file p (png_encode img).

(** The body of the outer [try] (lines 7-66): draw, save, report.  It
    returns the canvas it saved. *)
Definition compose (env : Env) : M Canvas :=
  let! img := draw_image env in
  Image_save env img output_path "PNG" 95 >>>
  print "OG image created successfully: horsestrap-og-image.png" >>>
  ret img.

(** The handlers of lines 68-78: [except ImportError] first, then
    [except Exception as e]; anything else propagates.  [None] as the
    result of a handled run says that no canvas was saved. *)
Definition main (env : Env) : M (option Canvas) :=
  try_except
    (let! img := compose env in ret (Some img))
    (fun e =>
       match exn_cls e with
       | ImportError =>
           print "PIL/Pillow not available. Please install with: pip install Pillow" >>>
           print "Falling back to copying mascot as OG image..." >>>
           shutil_copy env mascot_path output_path >>>
           ret None
       | Exception =>
           print ("Error creating OG image: " +:+ exn_msg e) >>>
           print "Falling back to copying mascot as OG image..." >>>
           shutil_copy env mascot_path output_path >>>
           ret None
       | BaseException => raise e
       end).

End Script.

(** A state with the given files, nothing printed and no variable bound. *)
Definition initial (fs : gmap string (list Byte.byte)) : State :=
  {| files := fs; console := []; vars := unbound |}.

(** An environment in which the library is installed and no call raises. *)
Definition quiet (mode : string) (size : Z * Z) : Env :=
  {| pil_available := true; mascot_mode := mode; mascot_size := size;
     fault := fun _ => None; copy_fault := None |}.

(** The canvas as [Image.new] returns it. *)
Definition blank_canvas : Canvas :=
  {| cv_mode := "RGB"; cv_size := (width, height); cv_color := "#4a4554";
     cv_ops := [] |}.

(** A working directory that holds only a mascot file with the given bytes. *)
Definition only_mascot (bytes : list Byte.byte) : gmap string (list Byte.byte) :=
  {[ mascot_path := bytes ]}.

Definition with_vars (st : State) (v : FontVars) : State :=
  {| files := files st; console := console st; vars := v |}.

(** The library is installed, the system font loads at 72 and 28 points
    and fails to load at 24. *)
Definition third_load_fails : Env :=
  {| pil_available := true; mascot_mode := "RGBA"; mascot_size := (512, 512);
     fault := fun c =>
       match c with
       | CTruetype 24 => Some (Exn Exception "cannot open resource")
       | _ => None
       end;
     copy_fault := None |}.

(** The first line a handler prints for the exception it caught. *)
Definition report_line (e : exn) : string :=
  match exn_cls e with
  | ImportError =>
      "PIL/Pillow not available. Please install with: pip install Pillow"
  | _ => "Error creating OG image: " +:+ exn_msg e
  end.

Definition fallback_line : string :=
  "Falling back to copying mascot as OG image...".

(** The imaging library is not installed. *)
Definition no_pil : Env :=
  {| pil_available := false; mascot_mode := "RGBA"; mascot_size := (512, 512);
     fault := fun _ => None; copy_fault := None |}.

(** The library is installed and the working directory cannot be written
    to: saving raises, and so does a copy into it. *)
Definition save_fails : Env :=
  {| pil_available := true; mascot_mode := "RGBA"; mascot_size := (512, 512);
     fault := fun c =>
       match c with
       | CSave => Some (Exn Exception "[Errno 13] Permission denied: 'horsestrap-og-image.png'")
       | _ => None
       end;
     copy_fault :=
       Some (Exn Exception "[Errno 13] Permission denied: 'horsestrap-og-image.png'",
             None) |}.

(** The library is installed and the mascot file is readable but is not an
    image the library can decode: opening it raises. *)
Definition open_fails : Env :=
  {| pil_available := true; mascot_mode := "RGBA"; mascot_size := (512, 512);
     fault := fun c =>
       match c with
       | COpen => Some (Exn Exception "cannot identify image file 'horsestrap-mascot.png'")
       | _ => None
       end;
     copy_fault := None |}.

(** A stand-in encoder for running the script on concrete inputs: one byte
    per drawing call. *)
Definition count_encode (img : Canvas) : list Byte.byte :=
  map (fun _ => Byte.x00) (cv_ops img).

Definition is_text (op : DrawOp) : bool :=
  match op with Text _ _ _ _ _ => true | _ => false end.

Definition is_paste (op : DrawOp) : bool :=
  match op with Paste _ _ _ => true | _ => false end.

Definition system_fonts : FontVars :=
  {| title_font := Some (TrueType arial 72);
     subtitle_font := Some (TrueType arial 28);
     tagline_font := Some (TrueType arial 24);
     feature_font := Some (TrueType arial 18) |}.

Definition default_fonts : FontVars :=
  {| title_font := Some DefaultFont; subtitle_font := Some DefaultFont;
     tagline_font := Some DefaultFont; feature_font := Some DefaultFont |}.

Definition font_sizes : list Z := [72; 28; 24; 18].

(** The six text calls of lines 48-62, for given fonts. *)
Definition text_calls (title subtitle tagline feature : Font) : list DrawOp :=
  [ Text (450, 180) title_text "#f5f5f0" title None;
    Text (450, 280) subtitle_text "#b8b8c0" subtitle None;
    Text (450, 330) tagline1_text "#999999" tagline None;
    Text (450, 360) tagline2_text "#999999" tagline None;
    Text (450, 410) features_text "#f5f5f0" feature None;
    Text (1160, 600) pun_text "#999999" feature (Some "ra") ].

(** The mascot as the script pastes it. *)
Definition resized_mascot (env : Env) : Image :=
  Resized (Opened mascot_path (mascot_mode env) (mascot_size env))
          (280, 280) LANCZOS.

Definition add_ops (img : Canvas) (ops : list DrawOp) : Canvas :=
  {| cv_mode := cv_mode img; cv_size := cv_size img;
     cv_color := cv_color img; cv_ops := cv_ops img ++ ops |}.

(** The line the loop draws in row [y], with the exact truncation in place
    of the float computation. *)
Definition row_line (y : Z) : DrawOp :=
  Line (0, y) (width, y) (color_of_value (spec_red y)).

(** The paste of lines 23-27, when no call raises. *)
Definition mascot_paste (env : Env) : DrawOp :=
  Paste (resized_mascot env) (100, 175)
    (if String.eqb (mascot_mode env) "RGBA"
     then Some (resized_mascot env) else None).

(** The fonts after lines 30-41. *)
Definition resolved_fonts (env : Env) : FontVars :=
  match fault env (CTruetype 72), fault env (CTruetype 28),
        fault env (CTruetype 24), fault env (CTruetype 18) with
  | None, None, None, None => system_fonts
  | _, _, _, _ => default_fonts
  end.

Definition role_font (v : FontVars) (role : FontVars -> option Font) : Font :=
  match role v with
  | Some f => f
  | None => DefaultFont
  end.

(** The text calls with the fonts the variables hold. *)
Definition text_calls_of (v : FontVars) : list DrawOp :=
  text_calls (role_font v title_font) (role_font v subtitle_font)
             (role_font v tagline_font) (role_font v feature_font).

(** No call outside the loading of the system font raises. *)
Definition only_fonts_may_fail (env : Env) : Prop :=
  forall c, (forall size, c <> CTruetype size) -> fault env c = None.

(** A step that touches neither the files nor the console. *)
Definition quiet_step {A} (m : M A) : Prop :=
  forall st r st', m st = (r, st') ->
    files st' = files st /\ console st' = console st.

Section PasteRule.

(** The library's rule for one channel of one pixel under [paste]:
    without a mask the source value is copied; with a mask, the current
    value is kept where the mask is 0, the source value is copied where
    it is 255, and the two are mixed in between.  How they are mixed is
    left to the library. *)
Variable mix : Z -> Z -> Z -> Z.

(** The alpha band of an image at one of its pixels. *)
Variable alpha_at : Image -> Z * Z -> Z.

Definition paste_pixel (mask : option Z) (src dst : Z) : Z :=
  match mask with
  | None => src
  | Some a => if a =? 0 then dst else if a =? 255 then src else mix a src dst
  end.

(** The value a paste leaves on the canvas under pixel [p] of the pasted
    image, [dst] being the value before. *)
Definition pasted_value (mask : option Image) (p : Z * Z) (src dst : Z) : Z :=
  paste_pixel (option_map (fun m => alpha_at m p) mask) src dst.

End PasteRule.

(* ===================================================================== *)
(** ** The claims that the script does not meet, as they are worded       *)
(* ===================================================================== *)


(** "Whenever the library is available the run succeeds and the output is
    a PNG of the canvas, 1200 by 630, whether or not the mascot exists." *)
Definition composition_always_succeeds (png_encode : Canvas -> list Byte.byte)
  : Prop :=
  forall (env : Env) (st : State),
    pil_available env = true ->
    exists img st',
      main png_encode env st = (Ok (Some img), st') /\
      files st' !! output_path = Some (png_encode img) /\
      cv_size img = (1200, 630).

(** "A mascot with an alpha channel is pasted with itself as mask, one
    without is pasted with no mask." *)
Definition mask_follows_alpha : Prop :=
  forall (env : Env) (img : Canvas) (st : State) im box mask,
    mascot_step env img st = (Ok (add_op img (Paste im box mask)), st) ->
    mask = if has_alpha_channel (im_mode im) then Some im else None.

(** "The text step draws exactly five strings." *)
Definition draws_five_texts : Prop :=
  forall (env : Env) (img img' : Canvas) (st st' : State),
    draw_texts env img st = (Ok img', st') ->
    exists ops, cv_ops img' = cv_ops img ++ ops /\ length ops = 5%nat.

(* ===================================================================== *)
(** ** The calls of a run in program order                                *)
(* ===================================================================== *)

(** The error of the first call in the list that raises, if any does. *)
Fixpoint first_fault (env : Env) (calls : list Call) : option exn :=
  match calls with
  | [] => None
  | c :: rest =>
      match fault env c with
      | Some e => Some e
      | None => first_fault env rest
      end
  end.

(** The mascot calls of lines 23-27, made only with the file present. *)
Definition mascot_calls (present : bool) : list Call :=
  if present then [COpen; CResize; CPaste] else [].

(** The calls of lines 12-27, in the order the script makes them. *)
Definition drawing_calls (present : bool) : list Call :=
  CNew :: CDraw :: map CLine (seqZ 0 height) ++ mascot_calls present.

(** The six text calls of lines 48-62. *)
Definition text_sites : list Call :=
  [ CText title_text; CText subtitle_text; CText tagline1_text;
    CText tagline2_text; CText features_text; CText pun_text ].

(** All calls of the outer [try] that can end it, in order.  The font
    loads of lines 32-35 sit between the drawing and the text calls; their
    errors never leave the inner [try]. *)
Definition run_calls (present : bool) : list Call :=
  drawing_calls present ++ text_sites ++ [CSave].

(** The error that ends the body of the outer [try], if one does. *)
Definition run_error (env : Env) (present : bool) : option exn :=
  if pil_available env then first_fault env (run_calls present)
  else Some (Exn ImportError "No module named 'PIL'").

(** The canvas of a run that reaches [img.save]. *)
Definition full_canvas (env : Env) (present : bool) : Canvas :=
  add_ops blank_canvas
    (map row_line (seqZ 0 height) ++
     (if present then [mascot_paste env] else []) ++
     text_calls_of (resolved_fonts env)).

Definition mascot_present (st : State) : bool :=
  bool_decide (is_Some (files st !! mascot_path)).

Definition success_line : string :=
  "OG image created successfully: horsestrap-og-image.png".

(** A second run of the script is a new process: it sees the files the
    first run left, an empty console and no variable. *)
Definition next_process (st : State) : State := initial (files st).

(** The pixels of the canvas. *)
Definition on_canvas (x y : Z) : Prop := 0 <= x < width /\ 0 <= y < height.

(** What a drawing call covers, for the calls whose extent is known. *)
Definition line_covers (op : DrawOp) (x y : Z) : Prop :=
  match op with
  | Line p0 p1 _ => on_hline p0 p1 x y
  | _ => False
  end.

(* ===================================================================== *)
(** ** The gradient                                                       *)
(* ===================================================================== *)

Lemma all_rows_ok : forallb row_ok (seqZ 0 height) = true.
Proof. vm_compute. reflexivity. Qed.

Lemma row_ok_range (y : Z) : 0 <= y < height -> row_ok y = true.
Proof.
  intros Hy.
  pose proof all_rows_ok as H.
  rewrite forallb_forall in H. apply H.
  apply list_elem_of_In, elem_of_seqZ. lia.
Qed.

Lemma color_value_spec (y : Z) :
  0 <= y < height -> color_value y = Some (spec_red y).
Proof.
  intros Hy. pose proof (row_ok_range y Hy) as H.
  unfold row_ok in H. destruct (color_value y) as [v|]; [|discriminate].
  repeat (apply andb_prop in H; destruct H as [H ?]).
  apply Z.eqb_eq in H. by subst.
Qed.

Lemma spec_red_bounds (y : Z) : 0 <= y < height -> 0x3a <= spec_red y <= 0x4a.
Proof.
  intros Hy. unfold spec_red, height in *.
  split.
  - apply Z.quot_le_lower_bound; lia.
  - apply Z.quot_le_upper_bound; lia.
Qed.

Lemma color_string_reads_back (y : Z) :
  0 <= y < height ->
  ImageColor.getrgb (color_of_value (spec_red y)) = Some (channels (spec_red y)).
Proof.
  intros Hy. pose proof (row_ok_range y Hy) as H.
  unfold row_ok in H. rewrite (color_value_spec y Hy) in H.
  apply andb_prop in H. destruct H as [_ H].
  by apply bool_decide_eq_true in H.
Qed.

(** C1: for every scanline y in [0, 630) the red, green and blue values the
    script computes lie in 0..255, so the offsets -10 and +20 never leave
    the range of a channel. *)
Theorem gradient_channels_in_range (y : Z) :
  0 <= y < height ->
  exists v, color_value y = Some v /\
    0 <= v <= 255 /\ 0 <= v - 10 <= 255 /\ 0 <= v + 20 <= 255 /\
    ImageColor.getrgb (color_of_value v) = Some (v, v - 10, v + 20).
Proof.
  intros Hy. exists (spec_red y).
  pose proof (spec_red_bounds y Hy) as Hb.
  split; [by apply color_value_spec|].
  repeat split; try lia.
  by apply color_string_reads_back.
Qed.

(** The boundary rows y = 0 and y = height - 1. *)
Lemma gradient_channels_in_range_witness :
  (exists v, color_value 0 = Some v /\
     0 <= v <= 255 /\ 0 <= v - 10 <= 255 /\ 0 <= v + 20 <= 255 /\
     ImageColor.getrgb (color_of_value v) = Some (v, v - 10, v + 20)) /\
  (exists v, color_value 629 = Some v /\
     0 <= v <= 255 /\ 0 <= v - 10 <= 255 /\ 0 <= v + 20 <= 255 /\
     ImageColor.getrgb (color_of_value v) = Some (v, v - 10, v + 20)).
Proof.
  split; apply gradient_channels_in_range; unfold height; lia.
Defined.

Lemma gradient_row_eq (env : Env) (y : Z) (img : Canvas) :
  0 <= y < height ->
  gradient_row env y img =
  draw_line env img (0, y) (width, y) (color_of_value (spec_red y)).
Proof.
  intros Hy. unfold gradient_row. by rewrite (color_value_spec y Hy).
Qed.

Lemma add_ops_nil (img : Canvas) : add_ops img [] = img.
Proof. destruct img. unfold add_ops. simpl. by rewrite app_nil_r. Qed.

Lemma add_ops_cons (img : Canvas) (op : DrawOp) (ops : list DrawOp) :
  add_ops (add_op img op) ops = add_ops img (op :: ops).
Proof. unfold add_ops, add_op. simpl. by rewrite <- app_assoc. Qed.

Lemma add_ops_app (img : Canvas) (ops1 ops2 : list DrawOp) :
  add_ops (add_ops img ops1) ops2 = add_ops img (ops1 ++ ops2).
Proof. unfold add_ops. simpl. by rewrite <- app_assoc. Qed.

Lemma for_each_rows (env : Env) (rows : list Z) (img : Canvas) (st : State) :
  (forall y, y ∈ rows -> 0 <= y < height /\ fault env (CLine y) = None) ->
  for_each rows (gradient_row env) img st =
  (Ok (add_ops img (map row_line rows)), st).
Proof.
  revert img. induction rows as [|y rows IH]; intros img Hrows.
  - simpl. by rewrite add_ops_nil.
  - destruct (Hrows y) as [Hy Hf]; [left|].
    change (for_each (y :: rows) (gradient_row env) img st)
      with (match gradient_row env y img st with
            | (Ok a, st') => for_each rows (gradient_row env) a st'
            | (Raise e, st') => (Raise e, st')
            end).
    rewrite (gradient_row_eq env y img Hy).
    unfold draw_line, bind, lib_call, ret. cbn [snd]. rewrite Hf.
    rewrite IH; [by rewrite add_ops_cons|].
    intros y' Hin. apply Hrows. by right.
Qed.

(** C2: for every scanline y in [0, height) the loop body draws one line
    from (0, y) to (width, y), covering the row from edge to edge, in the
    colour whose red channel is the truncation of
    0x4a + (0x3a - 0x4a) * (y / height), whose green channel is that value
    minus 10 and whose blue channel is that value plus 20; and the loop
    applies the body to the rows 0 .. height - 1 in order. *)
Theorem gradient_fill_rows (env : Env) (img : Canvas) (st : State) :
  (forall y, 0 <= y < height -> fault env (CLine y) = None) ->
  (forall y, 0 <= y < height ->
     gradient_row env y img st =
       (Ok (add_op img (Line (0, y) (width, y) (color_of_value (spec_red y)))), st) /\
     ImageColor.getrgb (color_of_value (spec_red y)) =
       Some (spec_red y, spec_red y - 10, spec_red y + 20) /\
     (forall x, 0 <= x < width -> on_hline (0, y) (width, y) x y)) /\
  exists img',
    gradient env img st = (Ok img', st) /\
    cv_ops img' =
      cv_ops img ++
      map (fun y => Line (0, y) (width, y) (color_of_value (spec_red y)))
          (seqZ 0 height).
Proof.
  intros Hf. split.
  - intros y Hy. split; [|split].
    + rewrite (gradient_row_eq env y img Hy).
      unfold draw_line, bind, lib_call. simpl. by rewrite (Hf y Hy).
    + by apply color_string_reads_back.
    + intros x Hx. unfold on_hline, width in *. simpl. lia.
  - exists (add_ops img (map row_line (seqZ 0 height))).
    split; [|reflexivity].
    unfold gradient. apply for_each_rows.
    intros y Hin. apply elem_of_seqZ in Hin.
    split; [lia|apply Hf; lia].
Qed.

Lemma gradient_fill_rows_witness :
  let env := quiet "RGBA" (512, 512) in
  let img := {| cv_mode := "RGB"; cv_size := (width, height);
                cv_color := "#4a4554"; cv_ops := [] |} in
  let st := initial ∅ in
  (forall y, 0 <= y < height ->
     gradient_row env y img st =
       (Ok (add_op img (Line (0, y) (width, y) (color_of_value (spec_red y)))), st) /\
     ImageColor.getrgb (color_of_value (spec_red y)) =
       Some (spec_red y, spec_red y - 10, spec_red y + 20) /\
     (forall x, 0 <= x < width -> on_hline (0, y) (width, y) x y)) /\
  exists img',
    gradient env img st = (Ok img', st) /\
    cv_ops img' =
      cv_ops img ++
      map (fun y => Line (0, y) (width, y) (color_of_value (spec_red y)))
          (seqZ 0 height).
Proof.
  intros env img st. apply (gradient_fill_rows env img st).
  intros y Hy. reflexivity.
Defined.

(** C10: the red value never increases from one row to a later one; it is
    0x4a in the top row and 0x3a in the bottom row, so the top of the
    background is strictly lighter than the bottom. *)
Theorem gradient_red_monotone (y1 y2 : Z) :
  0 <= y1 -> y1 <= y2 -> y2 < height ->
  (exists v1 v2,
     color_value y1 = Some v1 /\ color_value y2 = Some v2 /\ v2 <= v1) /\
  color_value 0 = Some 0x4a /\
  color_value (height - 1) = Some 0x3a /\
  0x3a < 0x4a.
Proof.
  intros H1 H12 H2. split; [|split; [|split]].
  - exists (spec_red y1), (spec_red y2).
    split; [apply color_value_spec; lia|].
    split; [apply color_value_spec; lia|].
    unfold spec_red, height in *. apply Z.quot_le_mono; lia.
  - rewrite color_value_spec; [reflexivity|unfold height; lia].
  - rewrite color_value_spec; [reflexivity|unfold height; lia].
  - lia.
Qed.

Lemma gradient_red_monotone_witness :
  (exists v1 v2,
     color_value 39 = Some v1 /\ color_value 40 = Some v2 /\ v2 <= v1) /\
  color_value 0 = Some 0x4a /\
  color_value (height - 1) = Some 0x3a /\
  0x3a < 0x4a.
Proof.
  apply (gradient_red_monotone 39 40); unfold height; lia.
Defined.

(** The descent is not strict from row to row: each red value is shared by
    a band of rows, here rows 1 and 2, and rows 39 and 40 straddle a step. *)
Remark gradient_has_bands :
  color_value 1 = Some 73 /\ color_value 2 = Some 73 /\
  color_value 39 = Some 73 /\ color_value 40 = Some 72.
Proof. vm_compute. repeat split. Qed.

(* ===================================================================== *)
(** ** The mascot step                                                    *)
(* ===================================================================== *)

Lemma add_op_neq (img : Canvas) (op : DrawOp) : add_op img op <> img.
Proof.
  intros H. apply (f_equal (fun c => length (cv_ops c))) in H.
  simpl in H. rewrite length_app in H. simpl in H. lia.
Qed.

Lemma mascot_step_absent (env : Env) (img : Canvas) (st : State) :
  files st !! mascot_path = None -> mascot_step env img st = (Ok img, st).
Proof.
  intros H. unfold mascot_step, bind, path_exists. rewrite H.
  rewrite bool_decide_eq_false_2; [reflexivity|]. by intros [? ?].
Qed.

Lemma mascot_step_present (env : Env) (img : Canvas) (st : State) :
  is_Some (files st !! mascot_path) ->
  mascot_step env img st =
  match fault env COpen, fault env CResize, fault env CPaste with
  | Some e, _, _ => (Raise e, st)
  | None, Some e, _ => (Raise e, st)
  | None, None, Some e => (Raise e, st)
  | None, None, None =>
      (Ok (add_op img
             (Paste (resized_mascot env) (100, 175)
                (if String.eqb (mascot_mode env) "RGBA"
                 then Some (resized_mascot env) else None))), st)
  end.
Proof.
  intros H. unfold mascot_step, bind, path_exists.
  rewrite bool_decide_eq_true_2 by done.
  unfold Image_open, Image_resize, Image_paste, bind, lib_call, ret.
  destruct (fault env COpen); [reflexivity|].
  destruct (fault env CResize); [reflexivity|].
  destruct (fault env CPaste); reflexivity.
Qed.

(** C5: the mascot step is carried out exactly when the mascot file exists.
    When the file is absent the step returns the canvas as it was.  When it
    is present the image is opened, resized to 280 by 280 with the Lanczos
    filter and pasted at (100, 175), each of the three calls being able to
    raise; with none of them raising the canvas gains exactly that paste. *)
Theorem mascot_step_iff_present (env : Env) (img : Canvas) (st : State) :
  (files st !! mascot_path = None -> mascot_step env img st = (Ok img, st)) /\
  (is_Some (files st !! mascot_path) ->
   (forall e, fault env COpen = Some e -> mascot_step env img st = (Raise e, st)) /\
   (fault env COpen = None -> fault env CResize = None ->
    fault env CPaste = None ->
    exists mask,
      mascot_step env img st =
        (Ok (add_op img (Paste (resized_mascot env) (100, 175) mask)), st) /\
      im_size (resized_mascot env) = (280, 280) /\
      resized_mascot env =
        Resized (Opened mascot_path (mascot_mode env) (mascot_size env))
                (280, 280) LANCZOS)) /\
  (mascot_step env img st = (Ok img, st) <-> files st !! mascot_path = None).
Proof.
  split; [apply mascot_step_absent|]. split.
  - intros Hp. split.
    + intros e He. rewrite (mascot_step_present env img st Hp), He. reflexivity.
    + intros Ho Hr Hpa. eexists.
      rewrite (mascot_step_present env img st Hp), Ho, Hr, Hpa.
      split; [reflexivity|]. split; reflexivity.
  - split; [|apply mascot_step_absent].
    intros Hrun. destruct (files st !! mascot_path) as [bytes|] eqn:Hfile; [|done].
    rewrite (mascot_step_present env img st) in Hrun by (rewrite Hfile; eauto).
    destruct (fault env COpen); [discriminate|].
    destruct (fault env CResize); [discriminate|].
    destruct (fault env CPaste); [discriminate|].
    inversion Hrun as [Heq]. by apply add_op_neq in Heq.
Qed.

Lemma mascot_step_iff_present_witness :
  let env := quiet "RGB" (512, 512) in
  let st := initial (only_mascot []) in
  exists mask,
    mascot_step env blank_canvas st =
      (Ok (add_op blank_canvas (Paste (resized_mascot env) (100, 175) mask)), st) /\
    im_size (resized_mascot env) = (280, 280) /\
    resized_mascot env =
      Resized (Opened mascot_path (mascot_mode env) (mascot_size env))
              (280, 280) LANCZOS.
Proof.
  intros env st.
  destruct (mascot_step_iff_present env blank_canvas st) as (_ & H & _).
  destruct H as [_ H].
  - unfold st, initial, only_mascot. simpl. rewrite lookup_singleton_eq. eauto.
  - apply H; reflexivity.
Defined.

(** The mask the script passes is decided by one test: the mode being
    [RGBA]. *)
Lemma mascot_mask_by_mode (env : Env) (img : Canvas) (st : State) im box mask :
  mascot_step env img st = (Ok (add_op img (Paste im box mask)), st) ->
  im = resized_mascot env /\ box = (100, 175) /\
  mask = if String.eqb (im_mode im) "RGBA" then Some im else None.
Proof.
  intros Hrun.
  destruct (files st !! mascot_path) as [bytes|] eqn:Hfile.
  - rewrite (mascot_step_present env img st) in Hrun by (rewrite Hfile; eauto).
    destruct (fault env COpen); [discriminate|].
    destruct (fault env CResize); [discriminate|].
    destruct (fault env CPaste); [discriminate|].
    inversion Hrun as [Heq].
    apply app_inv_head in Heq. inversion Heq; subst. done.
  - rewrite (mascot_step_absent env img st Hfile) in Hrun.
    inversion Hrun as [Heq]. symmetry in Heq. by apply add_op_neq in Heq.
Qed.

(** C7, as worded, fails: a mascot in mode [LA] (grey with alpha) has an
    alpha channel and is pasted with no mask. *)
Lemma mask_follows_alpha_counterexample : ~ mask_follows_alpha.
Proof.
  intros H.
  specialize (H (quiet "LA" (64, 64)) blank_canvas (initial (only_mascot []))
                (resized_mascot (quiet "LA" (64, 64))) (100, 175) None).
  assert (Hrun : mascot_step (quiet "LA" (64, 64)) blank_canvas
                   (initial (only_mascot [])) =
                 (Ok (add_op blank_canvas
                        (Paste (resized_mascot (quiet "LA" (64, 64)))
                           (100, 175) None)),
                  initial (only_mascot []))).
  { rewrite mascot_step_present; [reflexivity|].
    unfold initial, only_mascot. simpl. rewrite lookup_singleton_eq. eauto. }
  specialize (H Hrun). vm_compute in H. discriminate H.
Qed.

(** C7, amended: with the mascot file present and no call raising, the
    mascot is pasted with itself as mask exactly when its mode is [RGBA],
    and then a pixel whose alpha is 0 leaves the canvas value under it as
    it was; in every other mode, those with an alpha band such as [LA]
    included, it is pasted with no mask and its values are copied. *)
Theorem mascot_mask_iff_rgba (mix : Z -> Z -> Z -> Z)
    (alpha_at : Image -> Z * Z -> Z)
    (env : Env) (img : Canvas) (st : State) :
  is_Some (files st !! mascot_path) ->
  fault env COpen = None -> fault env CResize = None -> fault env CPaste = None ->
  exists mask,
    mascot_step env img st =
      (Ok (add_op img (Paste (resized_mascot env) (100, 175) mask)), st) /\
    im_mode (resized_mascot env) = mascot_mode env /\
    (mascot_mode env = "RGBA" ->
       mask = Some (resized_mascot env) /\
       forall p src dst,
         alpha_at (resized_mascot env) p = 0 ->
         pasted_value mix alpha_at mask p src dst = dst) /\
    (mascot_mode env <> "RGBA" ->
       mask = None /\
       forall p src dst, pasted_value mix alpha_at mask p src dst = src).
Proof.
  intros Hp Ho Hr Hpa. eexists.
  rewrite (mascot_step_present env img st Hp), Ho, Hr, Hpa.
  split; [reflexivity|]. split; [reflexivity|]. split.
  - intros Hmode. rewrite Hmode. simpl. split; [reflexivity|].
    intros p src dst Ha. unfold pasted_value, paste_pixel. simpl.
    by rewrite Ha.
  - intros Hmode. apply String.eqb_neq in Hmode. rewrite Hmode.
    split; reflexivity.
Qed.

Lemma mascot_mask_iff_rgba_witness :
  let mix := fun a src dst : Z => (src * a + dst * (255 - a)) / 255 in
  let alpha_at := fun (_ : Image) (p : Z * Z) => if fst p <? 100 then 0 else 255 in
  let env := quiet "RGBA" (512, 512) in
  let st := initial (only_mascot []) in
  exists mask,
    mascot_step env blank_canvas st =
      (Ok (add_op blank_canvas (Paste (resized_mascot env) (100, 175) mask)), st) /\
    im_mode (resized_mascot env) = mascot_mode env /\
    (mascot_mode env = "RGBA" ->
       mask = Some (resized_mascot env) /\
       forall p src dst,
         alpha_at (resized_mascot env) p = 0 ->
         pasted_value mix alpha_at mask p src dst = dst) /\
    (mascot_mode env <> "RGBA" ->
       mask = None /\
       forall p src dst, pasted_value mix alpha_at mask p src dst = src).
Proof.
  intros mix alpha_at env st.
  apply (mascot_mask_iff_rgba mix alpha_at env blank_canvas st); try reflexivity.
  unfold st, initial, only_mascot. simpl. rewrite lookup_singleton_eq. eauto.
Defined.

(* ===================================================================== *)
(** ** Font resolution                                                    *)
(* ===================================================================== *)

Lemma resolve_fonts_cases (env : Env) (st : State) :
  resolve_fonts env st =
  (Ok tt,
   with_vars st
     (match fault env (CTruetype 72), fault env (CTruetype 28),
            fault env (CTruetype 24), fault env (CTruetype 18) with
      | None, None, None, None => system_fonts
      | _, _, _, _ => default_fonts
      end)).
Proof.
  unfold resolve_fonts, try_except, load_system_fonts, load_default_fonts,
    load_default, truetype, bind, lib_call, ret.
  destruct (fault env (CTruetype 72)); [reflexivity|].
  destruct (fault env (CTruetype 28)); [reflexivity|].
  destruct (fault env (CTruetype 24)); [reflexivity|].
  destruct (fault env (CTruetype 18)); reflexivity.
Qed.

(** C6: font resolution always ends normally with the four font variables
    bound, either to the system font at 72, 28, 24 and 18 points or all to
    the built-in default font; when loading fails at any of the four
    sizes, whatever the reason, all four are the default font. *)
Theorem fonts_all_or_nothing (env : Env) (st : State) :
  exists st',
    resolve_fonts env st = (Ok tt, st') /\
    files st' = files st /\ console st' = console st /\
    (vars st' = system_fonts \/ vars st' = default_fonts) /\
    ((exists size, size ∈ font_sizes /\ fault env (CTruetype size) <> None) ->
     vars st' = default_fonts).
Proof.
  eexists. split; [apply resolve_fonts_cases|].
  split; [reflexivity|]. split; [reflexivity|]. simpl. split.
  - destruct (fault env (CTruetype 72)), (fault env (CTruetype 28)),
      (fault env (CTruetype 24)), (fault env (CTruetype 18)); auto.
  - intros (size & Hin & Hf). unfold font_sizes in Hin.
    repeat (apply elem_of_cons in Hin; destruct Hin as [->|Hin]);
      try (by apply elem_of_nil in Hin);
      destruct (fault env (CTruetype 72)), (fault env (CTruetype 28)),
        (fault env (CTruetype 24)), (fault env (CTruetype 18));
      try reflexivity; by destruct Hf.
Qed.

Lemma fonts_all_or_nothing_witness :
  exists st',
    resolve_fonts third_load_fails (initial ∅) = (Ok tt, st') /\
    vars st' = default_fonts.
Proof.
  destruct (fonts_all_or_nothing third_load_fails (initial ∅))
    as (st' & Hrun & _ & _ & _ & Hdef).
  exists st'. split; [exact Hrun|].
  apply Hdef. exists 24. split; [|discriminate].
  unfold font_sizes. set_solver.
Defined.

(* ===================================================================== *)
(** ** The text step                                                      *)
(* ===================================================================== *)

Lemma draw_texts_bound (env : Env) (img : Canvas) (st : State)
    (ft fs fg ff : Font) :
  title_font (vars st) = Some ft -> subtitle_font (vars st) = Some fs ->
  tagline_font (vars st) = Some fg -> feature_font (vars st) = Some ff ->
  (forall text, fault env (CText text) = None) ->
  draw_texts env img st =
  (Ok {| cv_mode := cv_mode img; cv_size := cv_size img;
         cv_color := cv_color img;
         cv_ops := cv_ops img ++ text_calls ft fs fg ff |}, st).
Proof.
  intros Ht Hs Hg Hf Hfault.
  unfold draw_texts, draw_text, get_font, bind, lib_call, ret.
  repeat (first [rewrite Ht | rewrite Hs | rewrite Hg | rewrite Hf
                 | rewrite Hfault]; cbv beta iota).
  unfold add_op. simpl. rewrite <- !app_assoc. reflexivity.
Qed.

(** C9, as worded, fails: the text step draws six strings, not five. *)
Lemma draws_five_texts_counterexample : ~ draws_five_texts.
Proof.
  intros H.
  pose (st := with_vars (initial ∅) default_fonts).
  destruct (H (quiet "RGBA" (512, 512)) blank_canvas _ st st
              (draw_texts_bound (quiet "RGBA" (512, 512)) blank_canvas st
                 DefaultFont DefaultFont DefaultFont DefaultFont
                 eq_refl eq_refl eq_refl eq_refl (fun _ => eq_refl)))
    as (ops & Hops & Hlen).
  simpl in Hops. subst ops. simpl in Hlen. discriminate Hlen.
Qed.

(** C9, amended: with the four font variables bound and no text call
    raising, the text step draws exactly six fixed strings (title,
    subtitle, two tagline lines, feature line, closing pun), each at a
    fixed position in a fixed colour and in the font of its role, the pun
    alone anchored at its right edge; size and mode of the canvas stay. *)
Theorem draws_six_texts (env : Env) (img : Canvas) (st : State)
    (ft fs fg ff : Font) :
  title_font (vars st) = Some ft -> subtitle_font (vars st) = Some fs ->
  tagline_font (vars st) = Some fg -> feature_font (vars st) = Some ff ->
  (forall text, fault env (CText text) = None) ->
  exists img',
    draw_texts env img st = (Ok img', st) /\
    cv_ops img' =
      cv_ops img ++
      [ Text (450, 180) "HORSESTRAP" "#f5f5f0" ft None;
        Text (450, 280) "The Anti-Framework Framework" "#b8b8c0" fs None;
        Text (450, 330) "Zero-config deployment for .NET Umbraco CMS"
             "#999999" fg None;
        Text (450, 360) "Fresh Ubuntu to live site in 2 minutes"
             "#999999" fg None;
        Text (450, 410) features_text "#f5f5f0" ff None;
        Text (1160, 600) pun_text "#999999" ff (Some "ra") ] /\
    length (cv_ops img') = (length (cv_ops img) + 6)%nat /\
    cv_size img' = cv_size img /\ cv_mode img' = cv_mode img.
Proof.
  intros Ht Hs Hg Hf Hfault. eexists.
  split; [by apply (draw_texts_bound env img st ft fs fg ff)|].
  simpl. split; [reflexivity|].
  split; [|split; reflexivity].
  rewrite length_app. reflexivity.
Qed.

Lemma draws_six_texts_witness :
  let st := with_vars (initial ∅) system_fonts in
  exists img',
    draw_texts (quiet "RGBA" (512, 512)) blank_canvas st = (Ok img', st) /\
    cv_ops img' =
      cv_ops blank_canvas ++
      [ Text (450, 180) "HORSESTRAP" "#f5f5f0" (TrueType arial 72) None;
        Text (450, 280) "The Anti-Framework Framework" "#b8b8c0"
             (TrueType arial 28) None;
        Text (450, 330) "Zero-config deployment for .NET Umbraco CMS"
             "#999999" (TrueType arial 24) None;
        Text (450, 360) "Fresh Ubuntu to live site in 2 minutes"
             "#999999" (TrueType arial 24) None;
        Text (450, 410) features_text "#f5f5f0" (TrueType arial 18) None;
        Text (1160, 600) pun_text "#999999" (TrueType arial 18) (Some "ra") ] /\
    length (cv_ops img') = (length (cv_ops blank_canvas) + 6)%nat /\
    cv_size img' = cv_size blank_canvas /\ cv_mode img' = cv_mode blank_canvas.
Proof.
  intros st.
  apply (draws_six_texts (quiet "RGBA" (512, 512)) blank_canvas st);
    reflexivity.
Defined.

(* ===================================================================== *)
(** ** The whole run                                                      *)
(* ===================================================================== *)

Lemma quiet_ret {A} (a : A) : quiet_step (ret a).
Proof. intros st r st' H. inversion H. done. Qed.

Lemma quiet_raise {A} (e : exn) : quiet_step (@raise A e).
Proof. intros st r st' H. inversion H. done. Qed.

Lemma quiet_bind {A B} (m : M A) (k : A -> M B) :
  quiet_step m -> (forall a, quiet_step (k a)) -> quiet_step (bind m k).
Proof.
  intros Hm Hk st r st' H. unfold bind in H.
  destruct (m st) as [[a|e] st1] eqn:Hrun.
  - destruct (Hm _ _ _ Hrun) as [Hf1 Hc1].
    destruct (Hk a _ _ _ H) as [Hf2 Hc2]. split; congruence.
  - inversion H; subst. by apply (Hm _ _ _ Hrun).
Qed.

Lemma quiet_try {A} (m : M A) (h : exn -> M A) :
  quiet_step m -> (forall e, quiet_step (h e)) -> quiet_step (try_except m h).
Proof.
  intros Hm Hh st r st' H. unfold try_except in H.
  destruct (m st) as [[a|e] st1] eqn:Hrun.
  - inversion H; subst. by apply (Hm _ _ _ Hrun).
  - destruct (Hm _ _ _ Hrun) as [Hf1 Hc1].
    destruct (Hh e _ _ _ H) as [Hf2 Hc2]. split; congruence.
Qed.

Lemma quiet_lib_call (env : Env) (c : Call) : quiet_step (lib_call env c).
Proof.
  intros st r st' H. unfold lib_call in H.
  destruct (fault env c); inversion H; done.
Qed.

Lemma quiet_for_each {A} (l : list Z) (body : Z -> A -> M A) (a : A) :
  (forall y a', quiet_step (body y a')) -> quiet_step (for_each l body a).
Proof.
  intros Hbody. revert a. induction l as [|y l IH]; intros a.
  - apply quiet_ret.
  - simpl. apply quiet_bind; [apply Hbody|apply IH].
Qed.

Lemma quiet_set_font (set : Font -> M unit) (f : Font) :
  set = set_title_font \/ set = set_subtitle_font \/
  set = set_tagline_font \/ set = set_feature_font ->
  quiet_step (set f).
Proof.
  intros [ -> | [ -> | [ -> | -> ] ] ] st r st' H; inversion H; done.
Qed.

Lemma quiet_get_font (name : string) (var : FontVars -> option Font) :
  quiet_step (get_font name var).
Proof.
  intros st r st' H. unfold get_font in H.
  destruct (var (vars st)); inversion H; done.
Qed.

Create HintDb quiet.
#[local] Hint Resolve quiet_lib_call quiet_get_font : quiet.
#[local] Hint Extern 1 (quiet_step (ret _)) => apply quiet_ret : quiet.
#[local] Hint Extern 1 (quiet_step (raise _)) => apply quiet_raise : quiet.
#[local] Hint Extern 2 (quiet_step (bind _ _)) =>
  apply quiet_bind; [|intros ?] : quiet.
#[local] Hint Extern 1 (quiet_step (set_title_font _)) =>
  apply quiet_set_font; tauto : quiet.
#[local] Hint Extern 1 (quiet_step (set_subtitle_font _)) =>
  apply quiet_set_font; tauto : quiet.
#[local] Hint Extern 1 (quiet_step (set_tagline_font _)) =>
  apply quiet_set_font; tauto : quiet.
#[local] Hint Extern 1 (quiet_step (set_feature_font _)) =>
  apply quiet_set_font; tauto : quiet.

Lemma quiet_gradient (env : Env) (img : Canvas) : quiet_step (gradient env img).
Proof.
  apply quiet_for_each. intros y a. unfold gradient_row, draw_line.
  destruct (color_value y); auto 10 with quiet.
Qed.

Lemma quiet_mascot_step (env : Env) (img : Canvas) :
  quiet_step (mascot_step env img).
Proof.
  unfold mascot_step. apply quiet_bind.
  - intros st r st' H. inversion H. done.
  - intros [|]; unfold Image_open, Image_resize, Image_paste;
      auto 20 with quiet.
Qed.

Lemma quiet_resolve_fonts (env : Env) : quiet_step (resolve_fonts env).
Proof.
  unfold resolve_fonts. apply quiet_try.
  - unfold load_system_fonts, truetype. auto 30 with quiet.
  - intros _. unfold load_default_fonts, load_default. auto 30 with quiet.
Qed.

Lemma quiet_draw_texts (env : Env) (img : Canvas) :
  quiet_step (draw_texts env img).
Proof.
  unfold draw_texts, draw_text. cbv zeta. auto 40 with quiet.
Qed.

Lemma quiet_draw_image (env : Env) : quiet_step (draw_image env).
Proof.
  unfold draw_image. apply quiet_bind.
  { unfold import_PIL. destruct (pil_available env); auto with quiet. }
  intros _. apply quiet_bind.
  { unfold Image_new. auto with quiet. }
  intros img0. apply quiet_bind.
  { unfold ImageDraw_Draw. auto with quiet. }
  intros img1. apply quiet_bind; [apply quiet_gradient|].
  intros img2. apply quiet_bind; [apply quiet_mascot_step|].
  intros img3. apply quiet_bind; [apply quiet_resolve_fonts|].
  intros _. apply quiet_draw_texts.
Qed.

Section Run.

Variable png_encode : Canvas -> list Byte.byte.

(** When the body of the outer [try] raises, nothing has been written or
    printed yet: saving is the last call that can raise. *)
Lemma compose_raise_quiet (env : Env) (st st1 : State) (e : exn) :
  compose png_encode env st = (Raise e, st1) ->
  files st1 = files st /\ console st1 = console st.
Proof.
  unfold compose, bind. intros H.
  destruct (draw_image env st) as [[img|e0] st0] eqn:Hdraw.
  - destruct (quiet_draw_image env _ _ _ Hdraw) as [Hf Hc].
    unfold Image_save, bind, lib_call in H.
    destruct (fault env CSave); inversion H; subst. done.
  - inversion H; subst. by apply (quiet_draw_image env _ _ _ Hdraw).
Qed.

Lemma import_failure_raises (env : Env) (st : State) :
  pil_available env = false ->
  compose png_encode env st =
  (Raise (Exn ImportError "No module named 'PIL'"), st).
Proof.
  intros H. unfold compose, draw_image, bind, import_PIL. by rewrite H.
Qed.

Lemma main_handles (env : Env) (st st1 : State) (e : exn) :
  compose png_encode env st = (Raise e, st1) ->
  main png_encode env st =
  match exn_cls e with
  | ImportError =>
      (print "PIL/Pillow not available. Please install with: pip install Pillow" >>>
       print "Falling back to copying mascot as OG image..." >>>
       shutil_copy env mascot_path output_path >>> ret None) st1
  | Exception =>
      (print ("Error creating OG image: " +:+ exn_msg e) >>>
       print "Falling back to copying mascot as OG image..." >>>
       shutil_copy env mascot_path output_path >>> ret None) st1
  | BaseException => (Raise e, st1)
  end.
Proof.
  intros H. unfold main, try_except. unfold bind at 1. rewrite H.
  destruct (exn_cls e); reflexivity.
Qed.

Lemma fallback_with_mascot (env : Env) (first_line : string) (st : State)
    (bytes : list Byte.byte) :
  files st !! mascot_path = Some bytes ->
  (print first_line >>>
   print "Falling back to copying mascot as OG image..." >>>
   shutil_copy env mascot_path output_path >>> ret (@None Canvas)) st =
  match copy_fault env with
  | None =>
      (Ok None,
       {| files := <[output_path := bytes]> (files st);
          console := (console st ++ [first_line]) ++
                     ["Falling back to copying mascot as OG image..."];
          vars := vars st |})
  | Some (e, written) =>
      (Raise e,
       {| files := match written with
                   | Some partial => <[output_path := partial]> (files st)
                   | None => files st
                   end;
          console := (console st ++ [first_line]) ++
                     ["Falling back to copying mascot as OG image..."];
          vars := vars st |})
  end.
Proof.
  intros H. unfold bind, print, shutil_copy, ret. simpl. rewrite H.
  destruct (copy_fault env) as [[e written]|]; reflexivity.
Qed.

Lemma fallback_without_mascot (env : Env) (first_line : string) (st : State) :
  files st !! mascot_path = None ->
  (print first_line >>>
   print "Falling back to copying mascot as OG image..." >>>
   shutil_copy env mascot_path output_path >>> ret (@None Canvas)) st =
  (Raise (Exn Exception
            "[Errno 2] No such file or directory: 'horsestrap-mascot.png'"),
   {| files := files st;
      console := (console st ++ [first_line]) ++
                 ["Falling back to copying mascot as OG image..."];
      vars := vars st |}).
Proof.
  intros H. unfold bind, print, shutil_copy, ret. simpl. rewrite H.
  reflexivity.
Qed.

(** C8: in every run that reaches a handler with the mascot file missing,
    the copy raises; the run ends with that error unhandled, the two
    lines of the handler printed and no file written or changed. *)
Theorem fallback_copy_unguarded (env : Env) (st st1 : State) (e : exn) :
  compose png_encode env st = (Raise e, st1) ->
  exn_cls e <> BaseException ->
  files st !! mascot_path = None ->
  exists st',
    main png_encode env st =
      (Raise (Exn Exception
                "[Errno 2] No such file or directory: 'horsestrap-mascot.png'"),
       st') /\
    files st' = files st /\
    console st' =
      console st ++
      [report_line e; "Falling back to copying mascot as OG image..."].
Proof.
  intros Hrun Hcls Hfile.
  destruct (compose_raise_quiet env st st1 e Hrun) as [Hf Hc].
  rewrite (main_handles env st st1 e Hrun). unfold report_line.
  destruct (exn_cls e); [| |done];
    (rewrite fallback_without_mascot by (by rewrite Hf));
    eexists; (split; [reflexivity|]); simpl;
    (split; [done|]); rewrite Hc, <- app_assoc; reflexivity.
Qed.

End Run.

Lemma fallback_copy_unguarded_witness :
  exists st',
    main count_encode no_pil (initial ∅) =
      (Raise (Exn Exception
                "[Errno 2] No such file or directory: 'horsestrap-mascot.png'"),
       st') /\
    files st' = files (initial ∅) /\
    console st' =
      console (initial ∅) ++
      [report_line (Exn ImportError "No module named 'PIL'");
       "Falling back to copying mascot as OG image..."].
Proof.
  apply (fallback_copy_unguarded count_encode no_pil (initial ∅) (initial ∅)
           (Exn ImportError "No module named 'PIL'")).
  - reflexivity.
  - discriminate.
  - reflexivity.
Defined.




Lemma bind_ok {A B} (m : M A) (k : A -> M B) (st st' : State) (a : A) :
  m st = (Ok a, st') -> bind m k st = k a st'.
Proof. intros H. unfold bind. by rewrite H. Qed.

Lemma resolved_fonts_bound (env : Env) :
  title_font (resolved_fonts env) =
    Some (role_font (resolved_fonts env) title_font) /\
  subtitle_font (resolved_fonts env) =
    Some (role_font (resolved_fonts env) subtitle_font) /\
  tagline_font (resolved_fonts env) =
    Some (role_font (resolved_fonts env) tagline_font) /\
  feature_font (resolved_fonts env) =
    Some (role_font (resolved_fonts env) feature_font).
Proof.
  unfold resolved_fonts.
  destruct (fault env (CTruetype 72)), (fault env (CTruetype 28)),
    (fault env (CTruetype 24)), (fault env (CTruetype 18)); done.
Qed.

(** The drawing calls of a run in which nothing but font loading fails. *)
Lemma draw_image_ok (env : Env) (st : State) :
  pil_available env = true -> only_fonts_may_fail env ->
  draw_image env st =
  (Ok (add_ops blank_canvas
         (map row_line (seqZ 0 height) ++
          (if bool_decide (is_Some (files st !! mascot_path))
           then [mascot_paste env] else []) ++
          text_calls_of (resolved_fonts env))),
   with_vars st (resolved_fonts env)).
Proof.
  intros Hpil Hq. unfold draw_image.
  rewrite (bind_ok _ _ st st tt) by (unfold import_PIL; by rewrite Hpil).
  rewrite (bind_ok _ _ st st blank_canvas)
    by (unfold Image_new, bind, lib_call; by rewrite (Hq CNew)).
  rewrite (bind_ok _ _ st st blank_canvas)
    by (unfold ImageDraw_Draw, bind, lib_call; by rewrite (Hq CDraw)).
  rewrite (bind_ok _ _ st st (add_ops blank_canvas (map row_line (seqZ 0 height)))).
  2:{ unfold gradient. apply for_each_rows. intros y Hin.
      apply elem_of_seqZ in Hin. split; [lia|by apply Hq]. }
  set (img1 := add_ops blank_canvas (map row_line (seqZ 0 height))).
  set (pastes := if bool_decide (is_Some (files st !! mascot_path))
                 then [mascot_paste env] else []).
  rewrite (bind_ok _ _ st st (add_ops img1 pastes)).
  2:{ unfold pastes. destruct (files st !! mascot_path) as [bytes|] eqn:Hfile.
      - rewrite mascot_step_present by (rewrite Hfile; eauto).
        rewrite (Hq COpen), (Hq CResize), (Hq CPaste) by done.
        rewrite bool_decide_eq_true_2 by eauto. reflexivity.
      - rewrite (mascot_step_absent env img1 st Hfile).
        rewrite bool_decide_eq_false_2 by (by intros [? ?]).
        by rewrite add_ops_nil. }
  rewrite (bind_ok _ _ st (with_vars st (resolved_fonts env)) tt)
    by apply resolve_fonts_cases.
  destruct (resolved_fonts_bound env) as (Ht & Hs & Hg & Hf).
  rewrite (draw_texts_bound env (add_ops img1 pastes)
             (with_vars st (resolved_fonts env)) _ _ _ _ Ht Hs Hg Hf)
    by (intros text; by apply Hq).
  do 2 rewrite <- add_ops_app. reflexivity.
Qed.

Lemma no_paste_in_rows (rows : list Z) :
  List.filter is_paste (map row_line rows) = [].
Proof. induction rows as [|y rows IH]; [reflexivity|exact IH]. Qed.

Lemma no_paste_in_texts (v : FontVars) :
  List.filter is_paste (text_calls_of v) = [].
Proof. reflexivity. Qed.

(** C4, as worded, fails: with the library available, no mascot file and a
    save that raises, the fallback copy raises as well; the run ends in an
    unhandled error and there is no output file. *)
Lemma composition_always_succeeds_counterexample :
  ~ composition_always_succeeds count_encode.
Proof.
  intros H.
  destruct (H save_fails (initial ∅) eq_refl) as (img & st' & Hrun & _).
  vm_compute in Hrun. discriminate Hrun.
Qed.

(** C4, amended: in every run in which the library is available and no
    call other than the loading of the system font raises, the run ends
    normally and the output file holds the PNG encoding of the canvas,
    which is RGB and exactly 1200 by 630; with the mascot file present the
    canvas carries the one mascot paste, with the file absent the step is
    skipped and it carries none. *)
Theorem composition_succeeds (png_encode : Canvas -> list Byte.byte)
    (env : Env) (st : State) :
  pil_available env = true -> only_fonts_may_fail env ->
  exists img st',
    main png_encode env st = (Ok (Some img), st') /\
    files st' = <[output_path := png_encode img]> (files st) /\
    files st' !! output_path = Some (png_encode img) /\
    cv_mode img = "RGB" /\ cv_size img = (1200, 630) /\
    console st' =
      console st ++ ["OG image created successfully: horsestrap-og-image.png"] /\
    (is_Some (files st !! mascot_path) ->
     List.filter is_paste (cv_ops img) = [mascot_paste env]) /\
    (files st !! mascot_path = None ->
     List.filter is_paste (cv_ops img) = []).
Proof.
  intros Hpil Hq.
  pose proof (draw_image_ok env st Hpil Hq) as Hdraw.
  set (pastes := if bool_decide (is_Some (files st !! mascot_path))
                 then [mascot_paste env] else []) in *.
  set (ops := map row_line (seqZ 0 height) ++ pastes ++
              text_calls_of (resolved_fonts env)) in *.
  exists (add_ops blank_canvas ops).
  exists {| files := <[output_path := png_encode (add_ops blank_canvas ops)]> (files st);
            console := console st ++
              ["OG image created successfully: horsestrap-og-image.png"];
            vars := resolved_fonts env |}.
  split.
  { unfold main, try_except, compose. unfold bind at 1.
    rewrite (bind_ok _ _ _ _ _ Hdraw).
    unfold Image_save, bind, lib_call. rewrite (Hq CSave) by done.
    reflexivity. }
  split; [reflexivity|]. split; [apply lookup_insert_eq|].
  split; [reflexivity|]. split; [reflexivity|]. split; [reflexivity|].
  change (cv_ops (add_ops blank_canvas ops)) with ops. unfold ops.
  rewrite !List.filter_app, no_paste_in_rows, no_paste_in_texts, app_nil_r.
  unfold pastes. split.
  - intros Hp. by rewrite bool_decide_eq_true_2.
  - intros Hn. rewrite bool_decide_eq_false_2; [done|].
    rewrite Hn. by intros [? ?].
Qed.

Lemma composition_succeeds_witness :
  (exists img st',
     main count_encode third_load_fails (initial (only_mascot [Byte.x89])) =
       (Ok (Some img), st') /\
     files st' !! output_path = Some (count_encode img) /\
     cv_size img = (1200, 630) /\
     List.filter is_paste (cv_ops img) = [mascot_paste third_load_fails]) /\
  (exists img st',
     main count_encode (quiet "RGB" (64, 64)) (initial ∅) = (Ok (Some img), st') /\
     files st' !! output_path = Some (count_encode img) /\
     cv_size img = (1200, 630) /\
     List.filter is_paste (cv_ops img) = []).
Proof.
  split.
  - destruct (composition_succeeds count_encode third_load_fails
                (initial (only_mascot [Byte.x89])))
      as (img & st' & Hrun & _ & Hout & _ & Hsize & _ & Hpaste & _).
    + reflexivity.
    + intros c Hc. destruct c; try reflexivity. by destruct (Hc size).
    + exists img, st'. split; [exact Hrun|]. split; [exact Hout|].
      split; [exact Hsize|]. apply Hpaste.
      unfold initial, only_mascot. simpl. rewrite lookup_singleton_eq. eauto.
  - destruct (composition_succeeds count_encode (quiet "RGB" (64, 64))
                (initial ∅))
      as (img & st' & Hrun & _ & Hout & _ & Hsize & _ & _ & Hpaste).
    + reflexivity.
    + intros c Hc. reflexivity.
    + exists img, st'. split; [exact Hrun|]. split; [exact Hout|].
      split; [exact Hsize|]. apply Hpaste. reflexivity.
Defined.

(* ===================================================================== *)
(** ** The run as a function of its first failing call                    *)
(* ===================================================================== *)

Lemma first_fault_app (env : Env) (a b : list Call) :
  first_fault env (a ++ b) =
  match first_fault env a with
  | Some e => Some e
  | None => first_fault env b
  end.
Proof.
  induction a as [|c a IH]; [reflexivity|].
  simpl. destruct (fault env c); [reflexivity|exact IH].
Qed.

Lemma for_each_first_fault (env : Env) (rows : list Z) (img : Canvas)
    (st : State) :
  (forall y, y ∈ rows -> 0 <= y < height) ->
  for_each rows (gradient_row env) img st =
  match first_fault env (map CLine rows) with
  | Some e => (Raise e, st)
  | None => (Ok (add_ops img (map row_line rows)), st)
  end.
Proof.
  revert img. induction rows as [|y rows IH]; intros img Hrows.
  - simpl. by rewrite add_ops_nil.
  - change (for_each (y :: rows) (gradient_row env) img st)
      with (match gradient_row env y img st with
            | (Ok a, st') => for_each rows (gradient_row env) a st'
            | (Raise e, st') => (Raise e, st')
            end).
    rewrite (gradient_row_eq env y img) by (apply Hrows; left).
    unfold draw_line, bind, lib_call, ret. cbn [snd map first_fault].
    destruct (fault env (CLine y)); [reflexivity|].
    rewrite IH by (intros y' Hin; apply Hrows; by right).
    by rewrite add_ops_cons.
Qed.

Lemma mascot_step_first_fault (env : Env) (img : Canvas) (st : State) :
  mascot_step env img st =
  match first_fault env (mascot_calls (mascot_present st)) with
  | Some e => (Raise e, st)
  | None =>
      (Ok (add_ops img (if mascot_present st then [mascot_paste env] else [])),
       st)
  end.
Proof.
  unfold mascot_present.
  destruct (files st !! mascot_path) as [bytes|] eqn:Hfile.
  - rewrite mascot_step_present by (rewrite Hfile; eauto).
    rewrite bool_decide_eq_true_2 by eauto. simpl.
    destruct (fault env COpen); [reflexivity|].
    destruct (fault env CResize); [reflexivity|].
    destruct (fault env CPaste); reflexivity.
  - rewrite (mascot_step_absent env img st Hfile).
    rewrite bool_decide_eq_false_2 by (by intros [? ?]).
    simpl. by rewrite add_ops_nil.
Qed.

Lemma draw_texts_first_fault (env : Env) (img : Canvas) (st : State)
    (ft fs fg ff : Font) :
  title_font (vars st) = Some ft -> subtitle_font (vars st) = Some fs ->
  tagline_font (vars st) = Some fg -> feature_font (vars st) = Some ff ->
  draw_texts env img st =
  match first_fault env text_sites with
  | Some e => (Raise e, st)
  | None => (Ok (add_ops img (text_calls ft fs fg ff)), st)
  end.
Proof.
  intros Ht Hs Hg Hf.
  unfold draw_texts, draw_text, get_font, bind, lib_call, ret, text_sites.
  cbn [first_fault].
  rewrite Ht. cbv beta iota.
  destruct (fault env (CText title_text)); [reflexivity|].
  rewrite Hs. cbv beta iota.
  destruct (fault env (CText subtitle_text)); [reflexivity|].
  rewrite Hg. cbv beta iota.
  destruct (fault env (CText tagline1_text)); [reflexivity|].
  rewrite Hg. cbv beta iota.
  destruct (fault env (CText tagline2_text)); [reflexivity|].
  rewrite Hf. cbv beta iota.
  destruct (fault env (CText features_text)); [reflexivity|].
  rewrite Hf. cbv beta iota.
  destruct (fault env (CText pun_text)); [reflexivity|].
  unfold add_ops, add_op, text_calls. cbn [cv_mode cv_size cv_color cv_ops].
  by rewrite <- !app_assoc.
Qed.

(** Lines 7-62 with the library installed: the first failing call ends the
    drawing with its error; with none failing the canvas is complete. *)
Lemma draw_image_first_fault (env : Env) (st : State) :
  pil_available env = true ->
  draw_image env st =
  match first_fault env (drawing_calls (mascot_present st)) with
  | Some e => (Raise e, st)
  | None =>
      match first_fault env text_sites with
      | Some e => (Raise e, with_vars st (resolved_fonts env))
      | None =>
          (Ok (full_canvas env (mascot_present st)),
           with_vars st (resolved_fonts env))
      end
  end.
Proof.
  intros Hpil. unfold draw_image, drawing_calls. cbn [first_fault].
  rewrite (bind_ok _ _ st st tt) by (unfold import_PIL; by rewrite Hpil).
  unfold Image_new at 1. unfold bind at 1. unfold bind at 1.
  unfold lib_call at 1. destruct (fault env CNew); [reflexivity|].
  cbv beta iota. unfold ret at 1.
  unfold ImageDraw_Draw at 1. unfold bind at 1. unfold bind at 1.
  unfold lib_call at 1. destruct (fault env CDraw); [reflexivity|].
  cbv beta iota. unfold ret at 1.
  rewrite first_fault_app.
  unfold bind at 1. unfold gradient.
  rewrite for_each_first_fault
    by (intros y Hin; apply elem_of_seqZ in Hin; lia).
  destruct (first_fault env (map CLine (seqZ 0 height))); [reflexivity|].
  unfold bind at 1. rewrite mascot_step_first_fault.
  destruct (first_fault env (mascot_calls (mascot_present st)));
    [reflexivity|].
  rewrite (bind_ok _ _ st (with_vars st (resolved_fonts env)) tt)
    by apply resolve_fonts_cases.
  destruct (resolved_fonts_bound env) as (Ht & Hs & Hg & Hf).
  rewrite (draw_texts_first_fault env _ (with_vars st (resolved_fonts env))
             _ _ _ _ Ht Hs Hg Hf).
  destruct (first_fault env text_sites); [reflexivity|].
  unfold full_canvas. do 2 rewrite <- add_ops_app. reflexivity.
Qed.

Lemma compose_first_fault (png_encode : Canvas -> list Byte.byte)
    (env : Env) (st : State) :
  exists v,
    compose png_encode env st =
    match run_error env (mascot_present st) with
    | Some e => (Raise e, with_vars st v)
    | None =>
        (Ok (full_canvas env (mascot_present st)),
         {| files := <[output_path :=
                         png_encode (full_canvas env (mascot_present st))]>
                       (files st);
            console := console st ++ [success_line];
            vars := v |})
    end.
Proof.
  unfold run_error. destruct (pil_available env) eqn:Hpil.
  - unfold run_calls. rewrite !first_fault_app.
    unfold compose. unfold bind at 1.
    rewrite (draw_image_first_fault env st Hpil).
    destruct (first_fault env (drawing_calls (mascot_present st))).
    { exists (vars st). by destruct st. }
    exists (resolved_fonts env).
    destruct (first_fault env text_sites); [reflexivity|].
    unfold Image_save, bind, lib_call. cbn [first_fault].
    destruct (fault env CSave); reflexivity.
  - exists (vars st).
    rewrite (import_failure_raises png_encode env st Hpil). by destruct st.
Qed.

(** The whole run, by the first call that raises, the presence of the
    mascot file and the way the copy ends. *)
Lemma main_first_fault (png_encode : Canvas -> list Byte.byte)
    (env : Env) (st : State) :
  exists st',
    match run_error env (mascot_present st) with
    | None =>
        main png_encode env st =
          (Ok (Some (full_canvas env (mascot_present st))), st') /\
        files st' =
          <[output_path := png_encode (full_canvas env (mascot_present st))]>
            (files st) /\
        console st' = console st ++ [success_line]
    | Some e =>
        match exn_cls e, files st !! mascot_path with
        | BaseException, _ =>
            main png_encode env st = (Raise e, st') /\
            files st' = files st /\ console st' = console st
        | _, Some bytes =>
            match copy_fault env with
            | None =>
                main png_encode env st = (Ok None, st') /\
                files st' = <[output_path := bytes]> (files st) /\
                console st' = console st ++ [report_line e; fallback_line]
            | Some (e', written) =>
                main png_encode env st = (Raise e', st') /\
                files st' =
                  match written with
                  | Some partial => <[output_path := partial]> (files st)
                  | None => files st
                  end /\
                console st' = console st ++ [report_line e; fallback_line]
            end
        | _, None =>
            main png_encode env st =
              (Raise (Exn Exception
                 "[Errno 2] No such file or directory: 'horsestrap-mascot.png'"),
               st') /\
            files st' = files st /\
            console st' = console st ++ [report_line e; fallback_line]
        end
    end.
Proof.
  destruct (compose_first_fault png_encode env st) as [v Hrun].
  destruct (run_error env (mascot_present st)) as [e|].
  - rewrite (main_handles png_encode env st _ e Hrun). unfold report_line.
    destruct (exn_cls e) eqn:Hcls;
      try (eexists; split; [reflexivity|]; split; reflexivity);
      destruct (files st !! mascot_path) as [bytes|] eqn:Hfile;
      try (rewrite (fallback_without_mascot env _ (with_vars st v) Hfile);
           eexists; split; [reflexivity|]; split; [reflexivity|];
           simpl; by rewrite <- app_assoc);
      rewrite (fallback_with_mascot env _ (with_vars st v) bytes Hfile);
      destruct (copy_fault env) as [[e' written]|];
      (eexists; split; [reflexivity|]; split; [reflexivity|];
       simpl; by rewrite <- app_assoc).
  - exists {| files := <[output_path :=
                           png_encode (full_canvas env (mascot_present st))]>
                         (files st);
              console := console st ++ [success_line]; vars := v |}.
    split; [|split; reflexivity].
    unfold main, try_except. unfold bind at 1. rewrite Hrun. reflexivity.
Qed.

(** X1: the outcome of a run is decided by the first call that raises, in
    program order, by whether the mascot file exists and by how the copy
    ends.  With no failing call the complete canvas (gradient rows, then
    the mascot if present, then the six texts) is saved and the success
    line printed.  An error outside [Exception] is re-raised with nothing
    printed or written.  Any other error is reported and followed by the
    fallback line; then, with no mascot file, the run ends in the copy's
    FileNotFoundError with no file written; with the mascot file present
    the run ends normally with the mascot bytes in the output file when
    the copy succeeds, and in the copy's own error when it does not. *)
Theorem run_by_first_fault (png_encode : Canvas -> list Byte.byte)
    (env : Env) (st : State) :
  (run_error env (mascot_present st) = None ->
   exists st',
     main png_encode env st =
       (Ok (Some (full_canvas env (mascot_present st))), st') /\
     files st' =
       <[output_path := png_encode (full_canvas env (mascot_present st))]>
         (files st) /\
     console st' = console st ++ [success_line]) /\
  (forall e,
     run_error env (mascot_present st) = Some e ->
     exn_cls e = BaseException ->
     exists st',
       main png_encode env st = (Raise e, st') /\
       files st' = files st /\ console st' = console st) /\
  (forall e bytes,
     run_error env (mascot_present st) = Some e ->
     exn_cls e <> BaseException ->
     files st !! mascot_path = Some bytes ->
     copy_fault env = None ->
     exists st',
       main png_encode env st = (Ok None, st') /\
       files st' = <[output_path := bytes]> (files st) /\
       console st' = console st ++ [report_line e; fallback_line]) /\
  (forall e bytes e' written,
     run_error env (mascot_present st) = Some e ->
     exn_cls e <> BaseException ->
     files st !! mascot_path = Some bytes ->
     copy_fault env = Some (e', written) ->
     exists st',
       main png_encode env st = (Raise e', st') /\
       files st' =
         match written with
         | Some partial => <[output_path := partial]> (files st)
         | None => files st
         end /\
       console st' = console st ++ [report_line e; fallback_line]) /\
  (forall e,
     run_error env (mascot_present st) = Some e ->
     exn_cls e <> BaseException ->
     files st !! mascot_path = None ->
     exists e' st',
       main png_encode env st = (Raise e', st') /\
       exn_cls e' = Exception /\
       files st' = files st /\
       console st' = console st ++ [report_line e; fallback_line]).
Proof.
  destruct (main_first_fault png_encode env st) as [st' H].
  split; [|split; [|split; [|split]]].
  - intros He. rewrite He in H. by exists st'.
  - intros e He Hcls. rewrite He, Hcls in H. by exists st'.
  - intros e bytes He Hcls Hfile Hcopy. rewrite He, Hfile, Hcopy in H.
    exists st'. by destruct (exn_cls e).
  - intros e bytes e' written He Hcls Hfile Hcopy.
    rewrite He, Hfile, Hcopy in H. exists st'. by destruct (exn_cls e).
  - intros e He Hcls Hfile. rewrite He, Hfile in H.
    destruct (exn_cls e); [| |done];
      (eexists; exists st'; destruct H as (H1 & H2 & H3);
       split; [exact H1|]; split; [reflexivity|]; by split).
Qed.

Lemma run_by_first_fault_witness :
  exists st',
    main count_encode open_fails (initial (only_mascot [Byte.x89])) =
      (Ok None, st') /\
    files st' =
      <[output_path := [Byte.x89]]> (files (initial (only_mascot [Byte.x89]))) /\
    console st' =
      console (initial (only_mascot [Byte.x89])) ++
      [report_line
         (Exn Exception "cannot identify image file 'horsestrap-mascot.png'");
       fallback_line].
Proof.
  assert (Herr : run_error open_fails
                   (mascot_present (initial (only_mascot [Byte.x89]))) =
                 Some (Exn Exception
                         "cannot identify image file 'horsestrap-mascot.png'"))
    by (vm_compute; reflexivity).
  assert (Hfile : files (initial (only_mascot [Byte.x89])) !! mascot_path =
                  Some [Byte.x89]).
  { unfold initial, only_mascot. simpl. by rewrite lookup_singleton_eq. }
  destruct (run_by_first_fault count_encode open_fails
              (initial (only_mascot [Byte.x89]))) as (_ & _ & H & _).
  exact (H _ _ Herr ltac:(discriminate) Hfile eq_refl).
Defined.

(** What a run does to the files: it leaves them as they were or writes
    the output file, and nothing else. *)
Lemma main_files (png_encode : Canvas -> list Byte.byte)
    (env : Env) (st st' : State) (r : result (option Canvas)) :
  main png_encode env st = (r, st') ->
  files st' = files st \/
  exists bytes, files st' = <[output_path := bytes]> (files st).
Proof.
  intros Hrun.
  destruct (main_first_fault png_encode env st) as [st1 H].
  destruct (run_error env (mascot_present st)) as [e|].
  - destruct (exn_cls e), (files st !! mascot_path) as [bytes|];
      try destruct (copy_fault env) as [[e' [partial|]]|];
      destruct H as (H1 & H2 & H3); rewrite H1 in Hrun;
      inversion Hrun; subst; eauto.
  - destruct H as (H1 & H2 & H3). rewrite H1 in Hrun.
    inversion Hrun; subst. eauto.
Qed.

Lemma paths_differ : mascot_path <> output_path.
Proof. discriminate. Qed.

(** X2: a run never touches a file other than the output file; in
    particular the mascot file is left as it was. *)
Theorem only_output_written (png_encode : Canvas -> list Byte.byte)
    (env : Env) (st st' : State) (r : result (option Canvas)) (p : string) :
  main png_encode env st = (r, st') ->
  p <> output_path ->
  files st' !! p = files st !! p.
Proof.
  intros Hrun Hp.
  destruct (main_files png_encode env st st' r Hrun)
    as [Hf|[bytes Hf]]; rewrite Hf; [reflexivity|].
  by rewrite lookup_insert_ne.
Qed.

Lemma only_output_written_witness :
  let st := initial (only_mascot [Byte.x89]) in
  files (snd (main count_encode no_pil st)) !! mascot_path = files st !! mascot_path.
Proof.
  intros st.
  apply (only_output_written count_encode no_pil st
           (snd (main count_encode no_pil st))
           (fst (main count_encode no_pil st)) mascot_path).
  - vm_compute. reflexivity.
  - discriminate.
Defined.

(** A run that reports a saved canvas has saved the complete one. *)
Lemma main_saved (png_encode : Canvas -> list Byte.byte)
    (env : Env) (st st' : State) (img : Canvas) :
  main png_encode env st = (Ok (Some img), st') ->
  run_error env (mascot_present st) = None /\
  img = full_canvas env (mascot_present st) /\
  files st' = <[output_path := png_encode img]> (files st) /\
  console st' = console st ++ [success_line].
Proof.
  intros Hrun.
  destruct (main_first_fault png_encode env st) as [st1 H].
  destruct (run_error env (mascot_present st)) as [e|].
  - exfalso.
    destruct (exn_cls e), (files st !! mascot_path) as [bytes|];
      try destruct (copy_fault env) as [[e' written]|];
      destruct H as (H1 & _); rewrite H1 in Hrun; discriminate Hrun.
  - destruct H as (H1 & H2 & H3). rewrite H1 in Hrun.
    inversion Hrun; subst.
    split; [reflexivity|]. split; [reflexivity|]. split; assumption.
Qed.



Lemma mascot_kept (png_encode : Canvas -> list Byte.byte)
    (env : Env) (st st' : State) (r : result (option Canvas)) :
  main png_encode env st = (r, st') ->
  files st' !! mascot_path = files st !! mascot_path.
Proof.
  intros Hrun.
  destruct (main_files png_encode env st st' r Hrun)
    as [Hf|[bytes Hf]]; rewrite Hf; [reflexivity|].
  rewrite lookup_insert_ne; [reflexivity|]. intros H. by apply paths_differ.
Qed.

(** X4: after a run that saved its canvas, running the script again, as a
    new process on the files that run left and with the library behaving
    the same, saves the same canvas again and leaves every file as it
    was. *)
Theorem second_run_saves_same (png_encode : Canvas -> list Byte.byte)
    (env : Env) (st st1 st2 : State) (img : Canvas)
    (r2 : result (option Canvas)) :
  main png_encode env st = (Ok (Some img), st1) ->
  main png_encode env (next_process st1) = (r2, st2) ->
  r2 = Ok (Some img) /\ files st2 = files st1.
Proof.
  intros Hrun1 Hrun2.
  pose proof (mascot_kept png_encode env st st1 _ Hrun1) as Hkept.
  assert (Hpres : mascot_present (next_process st1) = mascot_present st).
  { unfold mascot_present, next_process, initial. simpl. by rewrite Hkept. }
  destruct (main_saved png_encode env st st1 img Hrun1)
    as (Herr & Himg & Hf1 & _).
  destruct (main_first_fault png_encode env (next_process st1)) as [sb Hb].
  rewrite Hpres, Herr in Hb. destruct Hb as (Hb1 & Hb2 & _).
  rewrite Hb1 in Hrun2. inversion Hrun2; subst r2 sb.
  split; [by rewrite Himg|].
  rewrite Hb2. change (files (next_process st1)) with (files st1).
  rewrite Hf1, Himg. by rewrite insert_insert_eq.
Qed.

Lemma second_run_saves_same_witness :
  let st := initial (only_mascot [Byte.x89]) in
  let first := main count_encode third_load_fails st in
  let second := main count_encode third_load_fails (next_process (snd first)) in
  fst second = Ok (Some (full_canvas third_load_fails true)) /\
  files (snd second) = files (snd first).
Proof.
  intros st first second.
  apply (second_run_saves_same count_encode third_load_fails st
           (snd first) (snd second) (full_canvas third_load_fails true)
           (fst second)).
  - vm_compute. reflexivity.
  - vm_compute. reflexivity.
Defined.

Lemma first_fault_lines_none (env : Env) (rows : list Z) :
  (forall y, y ∈ rows -> fault env (CLine y) = None) ->
  first_fault env (map CLine rows) = None.
Proof.
  induction rows as [|y rows IH]; intros H; [reflexivity|].
  simpl. rewrite (H y) by left. apply IH. intros y' Hin. apply H. by right.
Qed.

(** X5: the mascot step is only entered when the mascot file exists, so
    when the run fails inside it (opening, resizing or pasting raises an
    error that the outer handlers catch) the fallback copy has a source:
    the run never ends for lack of the mascot file.  It ends normally with
    the output file a copy of the mascot file when the copy succeeds, and
    in the copy's own error when the copy raises. *)
Theorem mascot_failure_has_source (png_encode : Canvas -> list Byte.byte)
    (env : Env) (st st1 : State) (img : Canvas) (e : exn) :
  pil_available env = true ->
  fault env CNew = None -> fault env CDraw = None ->
  (forall y, 0 <= y < height -> fault env (CLine y) = None) ->
  mascot_step env img st = (Raise e, st1) ->
  exn_cls e <> BaseException ->
  exists bytes,
    files st !! mascot_path = Some bytes /\
    (copy_fault env = None ->
     exists st',
       main png_encode env st = (Ok None, st') /\
       files st' = <[output_path := bytes]> (files st) /\
       console st' = console st ++ [report_line e; fallback_line]) /\
    (forall e' written,
       copy_fault env = Some (e', written) ->
       exists st',
         main png_encode env st = (Raise e', st') /\
         console st' = console st ++ [report_line e; fallback_line]).
Proof.
  intros Hpil Hnew Hdraw Hlines Hstep Hcls.
  rewrite mascot_step_first_fault in Hstep.
  destruct (first_fault env (mascot_calls (mascot_present st))) as [e0|] eqn:Hm;
    [|discriminate]. inversion Hstep; subst e0 st1.
  assert (Hpres : mascot_present st = true).
  { destruct (mascot_present st); [reflexivity|discriminate Hm]. }
  assert (Hfile : is_Some (files st !! mascot_path)).
  { unfold mascot_present in Hpres. by apply bool_decide_eq_true in Hpres. }
  destruct Hfile as [bytes Hfile].
  assert (Herr : run_error env (mascot_present st) = Some e).
  { unfold run_error, run_calls, drawing_calls. rewrite Hpil.
    cbn [first_fault app]. rewrite Hnew, Hdraw, !first_fault_app.
    rewrite first_fault_lines_none, Hm; [reflexivity|].
    intros y Hin. apply elem_of_seqZ in Hin. apply Hlines. lia. }
  destruct (main_first_fault png_encode env st) as [st' H].
  rewrite Herr, Hfile in H. exists bytes.
  split; [exact Hfile|]. split.
  - intros Hcopy. rewrite Hcopy in H. exists st'. by destruct (exn_cls e).
  - intros e' written Hcopy. rewrite Hcopy in H. exists st'.
    destruct (exn_cls e); [| |done]; by destruct H as (H1 & _ & H3).
Qed.

Lemma mascot_failure_has_source_witness :
  let st := initial (only_mascot [Byte.x89]) in
  let e := Exn Exception "cannot identify image file 'horsestrap-mascot.png'" in
  exists bytes,
    files st !! mascot_path = Some bytes /\
    (copy_fault open_fails = None ->
     exists st',
       main count_encode open_fails st = (Ok None, st') /\
       files st' = <[output_path := bytes]> (files st) /\
       console st' = console st ++ [report_line e; fallback_line]) /\
    (forall e' written,
       copy_fault open_fails = Some (e', written) ->
       exists st',
         main count_encode open_fails st = (Raise e', st') /\
         console st' = console st ++ [report_line e; fallback_line]).
Proof.
  intros st e.
  assert (Hstep : mascot_step open_fails blank_canvas st = (Raise e, st))
    by (vm_compute; reflexivity).
  apply (mascot_failure_has_source count_encode open_fails st st blank_canvas e).
  - reflexivity.
  - reflexivity.
  - reflexivity.
  - intros y Hy. reflexivity.
  - exact Hstep.
  - discriminate.
Defined.

(** X6: the gradient has no jumps: from one row to the next the red value
    either stays or drops by exactly one (and green and blue, at fixed
    offsets from it, do the same). *)
Theorem gradient_steps_by_one (y : Z) :
  0 <= y -> y + 1 < height ->
  exists v v',
    color_value y = Some v /\ color_value (y + 1) = Some v' /\
    (v' = v \/ v' = v - 1) /\
    (channels v' = channels v \/
     channels v' = (v - 1, (v - 10) - 1, (v + 20) - 1)).
Proof.
  intros H0 H1.
  assert (Hstep : spec_red (y + 1) = spec_red y \/
                  spec_red (y + 1) = spec_red y - 1).
  { unfold spec_red, height in *.
    rewrite !Z.quot_div_nonneg by lia.
    Z.to_euclidean_division_equations. lia. }
  exists (spec_red y), (spec_red (y + 1)).
  split; [apply color_value_spec; lia|].
  split; [apply color_value_spec; lia|].
  split; [exact Hstep|].
  destruct Hstep as [Hs|Hs]; rewrite Hs; [by left|right].
  unfold channels.
  replace (spec_red y - 1 - 10) with (spec_red y - 10 - 1) by lia.
  replace (spec_red y - 1 + 20) with (spec_red y + 20 - 1) by lia.
  reflexivity.
Qed.

Lemma gradient_steps_by_one_witness :
  exists v v',
    color_value 39 = Some v /\ color_value (39 + 1) = Some v' /\
    (v' = v \/ v' = v - 1) /\
    (channels v' = channels v \/
     channels v' = (v - 1, (v - 10) - 1, (v + 20) - 1)).
Proof.
  apply (gradient_steps_by_one 39); unfold height; lia.
Defined.

Lemma lookup_rows (rows : list Z) (i : nat) :
  map row_line rows !! i = option_map row_line (rows !! i).
Proof.
  revert i. induction rows as [|y rows IH]; intros [|i]; try reflexivity.
  apply IH.
Qed.

Lemma length_rows (rows : list Z) : length (map row_line rows) = length rows.
Proof. induction rows as [|y rows IH]; simpl; [reflexivity|by rewrite IH]. Qed.

Lemma no_line_after_rows (env : Env) (present : bool) (op : DrawOp) (x y : Z) :
  op ∈ (if present then [mascot_paste env] else []) ++
       text_calls_of (resolved_fonts env) ->
  ~ line_covers op x y.
Proof.
  intros Hin Hcov. apply elem_of_app in Hin. destruct Hin as [Hin|Hin].
  - destruct present; [|by apply elem_of_nil in Hin].
    apply list_elem_of_singleton in Hin. by subst op.
  - unfold text_calls_of, text_calls in Hin.
    repeat (apply elem_of_cons in Hin; destruct Hin as [->|Hin]);
      try done. by apply elem_of_nil in Hin.
Qed.

(** X7: in the canvas a run saves, every pixel is covered by exactly one
    gradient line among all the drawing calls made, the one of its own
    row, drawn from edge to edge in that row's colour: the fill colour
    given to [Image.new] shows nowhere and no row is drawn twice. *)
Theorem gradient_covers_canvas (png_encode : Canvas -> list Byte.byte)
    (env : Env) (st st' : State) (img : Canvas) (x y : Z) :
  main png_encode env st = (Ok (Some img), st') ->
  on_canvas x y ->
  exists i,
    cv_ops img !! i =
      Some (Line (0, y) (width, y) (color_of_value (spec_red y))) /\
    line_covers (Line (0, y) (width, y) (color_of_value (spec_red y))) x y /\
    (forall j op,
       cv_ops img !! j = Some op -> line_covers op x y -> j = i).
Proof.
  intros Hrun [Hx Hy].
  destruct (main_saved png_encode env st st' img Hrun) as (_ & Himg & _).
  subst img. unfold full_canvas, add_ops, blank_canvas. cbn [cv_ops app].
  set (rest := (if mascot_present st then [mascot_paste env] else []) ++
               text_calls_of (resolved_fonts env)).
  assert (Hlen : length (map row_line (seqZ 0 height)) = Z.to_nat height)
    by (by rewrite length_rows, length_seqZ).
  exists (Z.to_nat y). split; [|split].
  - rewrite lookup_app_l by (rewrite Hlen; lia).
    rewrite lookup_rows, lookup_seqZ_lt by lia.
    simpl. unfold row_line. do 3 f_equal; f_equal; lia.
  - unfold line_covers, on_hline, width in *. simpl. lia.
  - intros j op Hj Hcov. apply lookup_app_Some in Hj.
    destruct Hj as [Hj|[_ Hj]].
    + rewrite lookup_rows in Hj.
      destruct (seqZ 0 height !! j) as [y'|] eqn:Hy'; [|discriminate].
      apply lookup_seqZ in Hy'. destruct Hy' as [-> _].
      inversion Hj; subst op.
      unfold row_line, line_covers, on_hline in Hcov. simpl in Hcov. lia.
    + exfalso.
      apply (no_line_after_rows env (mascot_present st) op x y);
        [|exact Hcov].
      apply list_elem_of_lookup. eauto.
Qed.

Lemma gradient_covers_canvas_witness :
  let st := initial ∅ in
  let env := quiet "RGBA" (512, 512) in
  exists i,
    cv_ops (full_canvas env false) !! i =
      Some (Line (0, 629) (width, 629) (color_of_value (spec_red 629))) /\
    line_covers (Line (0, 629) (width, 629) (color_of_value (spec_red 629)))
      1199 629 /\
    (forall j op,
       cv_ops (full_canvas env false) !! j = Some op ->
       line_covers op 1199 629 -> j = i).
Proof.
  intros st env.
  assert (Hrun : main count_encode env st =
                 (Ok (Some (full_canvas env false)),
                  snd (main count_encode env st)))
    by (vm_compute; reflexivity).
  apply (gradient_covers_canvas count_encode env st
           (snd (main count_encode env st)) (full_canvas env false) 1199 629
           Hrun).
  unfold on_canvas, width, height. lia.
Defined.

Lemma no_text_in_rows (rows : list Z) :
  List.filter is_text (map row_line rows) = [].
Proof. induction rows as [|y rows IH]; [reflexivity|exact IH]. Qed.

Lemma texts_of_full_canvas (env : Env) (present : bool) :
  List.filter is_text (cv_ops (full_canvas env present)) =
  text_calls_of (resolved_fonts env).
Proof.
  unfold full_canvas, add_ops, blank_canvas. cbn [cv_ops app].
  rewrite !List.filter_app, no_text_in_rows.
  destruct present; reflexivity.
Qed.

(** X8: the font fallback reaches the saved image as a whole.  In a run
    that saves its canvas, the six texts are drawn either in the system
    font at 72, 28, 24, 24, 18 and 18 points, when all four loads
    succeed, or all six in the default font, when any load fails. *)
Theorem saved_texts_share_font_kind (png_encode : Canvas -> list Byte.byte)
    (env : Env) (st : State) :
  run_error env (mascot_present st) = None ->
  exists img st',
    main png_encode env st = (Ok (Some img), st') /\
    ((forall size, size ∈ font_sizes -> fault env (CTruetype size) = None) ->
     List.filter is_text (cv_ops img) =
       text_calls (TrueType arial 72) (TrueType arial 28)
                  (TrueType arial 24) (TrueType arial 18)) /\
    ((exists size, size ∈ font_sizes /\ fault env (CTruetype size) <> None) ->
     List.filter is_text (cv_ops img) =
       text_calls DefaultFont DefaultFont DefaultFont DefaultFont).
Proof.
  intros Herr.
  destruct (main_first_fault png_encode env st) as [st' H].
  rewrite Herr in H. destruct H as (Hrun & _ & _).
  exists (full_canvas env (mascot_present st)), st'.
  split; [exact Hrun|]. rewrite texts_of_full_canvas.
  unfold resolved_fonts, font_sizes. split.
  - intros Hall.
    rewrite (Hall 72), (Hall 28), (Hall 24), (Hall 18) by set_solver.
    reflexivity.
  - intros (size & Hin & Hf).
    repeat (apply elem_of_cons in Hin; destruct Hin as [->|Hin]);
      try (by apply elem_of_nil in Hin);
      destruct (fault env (CTruetype 72)), (fault env (CTruetype 28)),
        (fault env (CTruetype 24)), (fault env (CTruetype 18));
      try reflexivity; by destruct Hf.
Qed.

Lemma saved_texts_share_font_kind_witness :
  exists img st',
    main count_encode third_load_fails (initial ∅) = (Ok (Some img), st') /\
    List.filter is_text (cv_ops img) =
      text_calls DefaultFont DefaultFont DefaultFont DefaultFont.
Proof.
  assert (Herr : run_error third_load_fails (mascot_present (initial ∅)) = None)
    by (vm_compute; reflexivity).
  destruct (saved_texts_share_font_kind count_encode third_load_fails
              (initial ∅) Herr) as (img & st' & Hrun & _ & Hdef).
  exists img, st'. split; [exact Hrun|]. apply Hdef.
  exists 24. split; [|discriminate]. unfold font_sizes.
  apply elem_of_cons; right. apply elem_of_cons; right.
  apply elem_of_cons; left. reflexivity.
Defined.

(* ===================================================================== *)
(** ** How far the unguarded offsets can be trusted                       *)
(* ===================================================================== *)

Lemma length_append (a b : string) :
  String.length (a +:+ b) = (String.length a + String.length b)%nat.
Proof. induction a as [|c a IH]; simpl; [reflexivity|by rewrite IH]. Qed.

Lemma length_zeros (k : nat) : String.length (PyFormat.zeros k) = k.
Proof. induction k as [|k IH]; simpl; [reflexivity|by rewrite IH]. Qed.

Lemma getrgb_length (s : string) (c : Z * Z * Z) :
  ImageColor.getrgb s = Some c -> String.length s = 7%nat.
Proof.
  destruct s as [|c0 [|r1 [|r2 [|g1 [|g2 [|b1 [|b2 [|x s]]]]]]]]; intros H;
    try reflexivity; exfalso; revert H; unfold ImageColor.getrgb;
    repeat match goal with
    | |- context [match ?a with Ascii _ _ _ _ _ _ _ _ => _ end] => destruct a
    | |- context [if ?b then _ else _] => destruct b
    end; discriminate.
Qed.

Lemma getrgb_minus (s : string) :
  ImageColor.getrgb (String "#" (String "-" s)) = None.
Proof.
  destruct s as [|r2 [|g1 [|g2 [|b1 [|b2 [|x s]]]]]]; reflexivity.
Qed.

(** A number from 256 on has at least three hexadecimal digits. *)
Lemma hex_long (n : Z) : 256 <= n -> (3 <= String.length (PyFormat.hex n))%nat.
Proof.
  intros Hn. unfold PyFormat.hex.
  pose proof (Unsigned.of_to (Z.to_N n)) as Hof.
  remember (Z.to_N n) as m eqn:Hm.
  destruct (N.to_hex_uint m) as [|u|u|u|u|u|u|u|u|u|u|u|u|u|u|u|u];
    try (vm_compute in Hof; lia);
    destruct u as [|u|u|u|u|u|u|u|u|u|u|u|u|u|u|u|u];
    try (vm_compute in Hof; lia);
    destruct u as [|u|u|u|u|u|u|u|u|u|u|u|u|u|u|u|u];
    try (vm_compute in Hof; lia);
    simpl; lia.
Qed.

Lemma format_length (n : Z) :
  0 <= n ->
  (2 <= String.length (PyFormat.format_02x n))%nat /\
  (String.length (PyFormat.hex n) <= String.length (PyFormat.format_02x n))%nat.
Proof.
  intros Hn. unfold PyFormat.format_02x.
  rewrite (proj2 (Z.ltb_ge n 0)) by lia. rewrite Z.abs_eq by lia.
  rewrite length_append, length_zeros. lia.
Qed.

Lemma color_of_negative (v : Z) :
  v < 0 -> ImageColor.getrgb (color_of_value v) = None.
Proof.
  intros Hv. unfold color_of_value, PyFormat.format_02x at 1.
  rewrite (proj2 (Z.ltb_lt v 0)) by lia. apply getrgb_minus.
Qed.

Lemma color_of_large (v : Z) :
  256 <= v -> ImageColor.getrgb (color_of_value v) = None.
Proof.
  intros Hv.
  destruct (ImageColor.getrgb (color_of_value v)) as [c|] eqn:Hrgb;
    [|reflexivity].
  apply getrgb_length in Hrgb. unfold color_of_value in Hrgb.
  simpl in Hrgb. rewrite !length_append in Hrgb.
  pose proof (hex_long v Hv) as H1.
  pose proof (hex_long (v + 20)) as H3.
  destruct (format_length v) as [_ L1]; [lia|].
  destruct (format_length (v - 10)) as [L2 _]; [lia|].
  destruct (format_length (v + 20)) as [_ L3]; [lia|].
  lia.
Qed.

Lemma safe_values_table :
  forallb (fun v => bool_decide (ImageColor.getrgb (color_of_value v) =
                                 Some (channels v)))
          (seqZ 10 226) = true.
Proof. vm_compute. reflexivity. Qed.

Lemma unsafe_values_table :
  forallb (fun v => negb (bool_decide (ImageColor.getrgb (color_of_value v) =
                                       Some (channels v))))
          (seqZ 0 10 ++ seqZ 236 20) = true.
Proof. vm_compute. reflexivity. Qed.

(** X9: the colour string of line 18 is a well-formed [#rrggbb] string
    that reads back as the three channels exactly when the red value lies
    between 10 and 235.  Below 10 the green field carries a minus sign,
    above 235 the blue field has a third digit: the offsets are not
    guarded, the script's constants merely stay inside the range. *)
Theorem offsets_safe_range (v : Z) :
  ImageColor.getrgb (color_of_value v) = Some (channels v) <-> 10 <= v <= 235.
Proof.
  split.
  - intros H.
    destruct (Z_lt_dec v 0) as [Hneg|Hnn].
    { rewrite color_of_negative in H by lia. discriminate H. }
    destruct (Z_le_dec 256 v) as [Hbig|Hsmall].
    { rewrite color_of_large in H by lia. discriminate H. }
    destruct (Z_le_dec 10 v) as [H10|H10];
      [destruct (Z_le_dec v 235) as [H235|H235]; [lia|]|].
    + pose proof unsafe_values_table as T. rewrite forallb_forall in T.
      specialize (T v). rewrite bool_decide_eq_true_2 in T by exact H.
      assert (Hin : In v (seqZ 0 10 ++ seqZ 236 20)).
      { apply in_or_app. right. apply list_elem_of_In, elem_of_seqZ. lia. }
      specialize (T Hin). discriminate T.
    + pose proof unsafe_values_table as T. rewrite forallb_forall in T.
      specialize (T v). rewrite bool_decide_eq_true_2 in T by exact H.
      assert (Hin : In v (seqZ 0 10 ++ seqZ 236 20)).
      { apply in_or_app. left. apply list_elem_of_In, elem_of_seqZ. lia. }
      specialize (T Hin). discriminate T.
  - intros Hv. pose proof safe_values_table as T.
    rewrite forallb_forall in T. specialize (T v).
    refine (bool_decide_eq_true_1 _ (T _)).
    apply list_elem_of_In, elem_of_seqZ. lia.
Qed.

(** The first values outside the range, on either side. *)
Remark offsets_fail_outside :
  color_of_value 9 = "#09-11d" /\ color_of_value 236 = "#ece2100".
Proof. vm_compute. split; reflexivity. Qed.

(** X10: the gradient is a staircase through every level: each red value
    from 0x4a down to 0x3a is the colour of some row. *)
Theorem gradient_uses_every_level (v : Z) :
  0x3a <= v <= 0x4a ->
  exists y, 0 <= y < height /\ color_value y = Some v.
Proof.
  intros Hv.
  exists (Z.min (height - 1) ((0x4a * height - height * v) / 16)).
  assert (Hy : 0 <= Z.min (height - 1) ((0x4a * height - height * v) / 16)
               < height).
  { unfold height. split; [|lia].
    apply Z.min_glb; [lia|]. apply Z.div_pos; lia. }
  split; [exact Hy|].
  rewrite color_value_spec by exact Hy. f_equal.
  unfold spec_red, height in *.
  rewrite Z.quot_div_nonneg by lia.
  Z.to_euclidean_division_equations. lia.
Qed.

Lemma gradient_uses_every_level_witness :
  exists y, 0 <= y < height /\ color_value y = Some 0x3a.
Proof.
  apply (gradient_uses_every_level 0x3a). lia.
Defined.
